(** * AuditLens: configuration, ingestion client and dashboard filters

    A shallow embedding of [config/settings.py], [src/ingest/secop_client.py]
    and [dashboard/app.py].

    - Python floats are IEEE binary64 numbers: Rocq's primitive floats.
    - Python ints are [Z].
    - A JSON record of the SECOP API, and a row of the frame built from such
      records, is a finite map from column names to cells; a null (NaN, NaT,
      None) is an absent key, except in a float column, where it is the
      float NaN, as in pandas.
    - A row of the scored per-contract table read by the dashboard is a
      record with one field per column.
    - Python's [str.strip], the conversions of pandas, [requests.get] and
      the regular-expression search are functions of a class each, with the
      laws that are used of them; the properties hold for every instance. *)

From Stdlib Require Import ZArith QArith Qabs Lia List Ascii String.
From Stdlib Require Import Floats.PrimFloat Floats.SpecFloat Floats.FloatOps.
From Stdlib Require Uint63.
From stdpp Require Import base option list gmap strings.

#[local] Set Warnings "-inexact-float,-clear-no-such-hyp".
#[local] Open Scope string_scope.
#[local] Open Scope Z_scope.

(** ** Binary64 helpers *)

(** The exact rational value of a finite float; [None] for NaN and the
    infinities. *)
Definition float_to_Q (x : float) : option Q :=
  match Prim2SF x with
  | S754_zero _ => Some 0%Q
  | S754_finite s m e =>
      let mag := (if (0 <=? e)%Z
                  then inject_Z (Z.pos m * 2 ^ e)
                  else Qmake (Z.pos m) (Pos.shiftl 1 (Z.to_N (- e))))%Z in
      Some (if s then Qopp mag else mag)
  | _ => None
  end.

(** Half of the unit in the last place of a finite, non-zero float. *)
Definition half_ulp (x : float) : option Q :=
  match Prim2SF x with
  | S754_finite _ _ e =>
      Some (if (0 <=? e - 1)%Z
            then inject_Z (2 ^ (e - 1))
            else Qmake 1 (Pos.shiftl 1 (Z.to_N (1 - e))))
  | _ => None
  end.

(** [x] is a binary64 number nearest to the decimal [d]: what the literal [d]
    denotes in Python source. *)
Definition denotes (x : float) (d : Q) : bool :=
  match float_to_Q x, half_ulp x with
  | Some q, Some h => if Qle_bool (Qabs (q - d)) h then true else false
  | _, _ => false
  end.

(** A civil date, as in the [YYYY-MM-DD] strings of the settings. *)
Record Timestamp := mkTimestamp {
  ts_year : Z; ts_month : Z; ts_day : Z;
  ts_hour : Z; ts_minute : Z; ts_second : Z
}.

(** ** config/settings.py *)

Module Settings.

Definition SECOP_ENDPOINT : string :=
  "https://www.datos.gov.co/resource/jbjy-vk9h.json".
Definition API_PAGE_SIZE : Z := 50000.

Definition TRAIN_START : string := "2019-01-01".
Definition TRAIN_END : string := "2021-12-31".
Definition VALID_START : string := "2022-01-01".
Definition VALID_END : string := "2022-08-06".

Definition SMMLV : gmap Z Z :=
  <[2019 := 828116]> (<[2020 := 877803]> (<[2021 := 908526]>
  (<[2022 := 1000000]> (<[2023 := 1160000]> ∅)))).

Definition WEIGHT_PROCESS_ANOMALY : float := 0.55%float.
Definition WEIGHT_SPLITTING : float := 0.25%float.
Definition WEIGHT_NETWORK : float := 0.10%float.
Definition WEIGHT_COMMUNITY : float := 0.10%float.

Definition TIER_LOW : float := 0.3%float.
Definition TIER_HIGH : float := 0.6%float.

Definition SPLITTING_WINDOWS_DAYS : list Z := [30; 60; 90].
Definition THRESHOLD_PROXIMITY_PCT : float := 0.10%float.

Definition CONTAMINATION_RATE : float := 0.05%float.

Definition PSI_MONITOR_THRESHOLD : float := 0.10%float.
Definition PSI_RETRAIN_THRESHOLD : float := 0.20%float.

Definition RANDOM_STATE : Z := 42.

(** The weights in the order of the composite
    [raw = w_pa*process_anomaly + w_sp*splitting + w_nw*network + w_cm*community]. *)
Definition WEIGHTS : list float :=
  [WEIGHT_PROCESS_ANOMALY; WEIGHT_SPLITTING; WEIGHT_NETWORK; WEIGHT_COMMUNITY].

(** The weights added one after the other in binary64, from [0]. *)
Definition float_sum (ws : list float) : float :=
  fold_left PrimFloat.add ws 0%float.

(** The sum of the exact values of the floats, in the rationals. *)
Definition exact_sum (ws : list float) : option Q :=
  foldr (fun w acc =>
           match float_to_Q w, acc with
           | Some q, Some a => Some (q + a)%Q
           | _, _ => None
           end) (Some 0%Q) ws.

End Settings.

(** ** Strings and timestamps *)

(** ASCII white space. *)
Definition is_space (a : ascii) : bool :=
  let n := nat_of_ascii a in
  ((9 <=? n) && (n <=? 13) || (28 <=? n) && (n <=? 32))%nat.

Fixpoint lstrip (s : string) : string :=
  match s with
  | EmptyString => EmptyString
  | String a s' => if is_space a then lstrip s' else s
  end.

Definition str_rev (s : string) : string :=
  string_of_list_ascii (rev (list_ascii_of_string s)).

Definition rstrip (s : string) : string := str_rev (lstrip (str_rev s)).

(** Stripping ASCII white space at both ends. *)
Definition ascii_strip (s : string) : string := rstrip (lstrip s).

(** A string of ASCII white space only. *)
Definition blank (s : string) : bool :=
  forallb is_space (list_ascii_of_string s).

(** Python's [s.strip()], which [Series.str.strip()] applies to each string:
    it removes the white space at both ends, that of Unicode included. Which
    characters that is, is left to the function; what is used of it is that a
    string of ASCII white space only, the empty string among them, is
    stripped to the empty string. *)
Class PyStr := {
  strip : string -> string;
  strip_blank : forall s, blank s = true -> strip s = EmptyString
}.

(** Python truthiness of a string and of a list. *)
Definition str_truthy (s : string) : bool :=
  match s with EmptyString => false | _ => true end.

Definition list_truthy {A} (l : list A) : bool :=
  match l with [] => false | _ => true end.

Definition digit_of (a : ascii) : option Z :=
  let n := Z.of_nat (nat_of_ascii a) in
  if (48 <=? n) && (n <=? 57) then Some (n - 48) else None.

Fixpoint parse_digits_acc (s : string) (acc : Z) : option Z :=
  match s with
  | EmptyString => Some acc
  | String a s' =>
      match digit_of a with
      | Some d => parse_digits_acc s' (10 * acc + d)
      | None => None
      end
  end.

Definition parse_digits (s : string) : option Z :=
  match s with
  | EmptyString => None
  | _ => parse_digits_acc s 0
  end.

(** Reads [YYYY-MM-DDTHH:MM:SS], the shape of the bounds that [fetch_page]
    writes into its query. *)
Definition parse_iso (s : string) : option Timestamp :=
  if negb (String.length s =? 19)%nat then None else
  if negb (String.eqb (substring 4 1 s) "-" && String.eqb (substring 7 1 s) "-"
           && String.eqb (substring 10 1 s) "T"
           && String.eqb (substring 13 1 s) ":" && String.eqb (substring 16 1 s) ":")
  then None else
  match parse_digits (substring 0 4 s), parse_digits (substring 5 2 s),
        parse_digits (substring 8 2 s), parse_digits (substring 11 2 s),
        parse_digits (substring 14 2 s), parse_digits (substring 17 2 s) with
  | Some y, Some mo, Some d, Some h, Some mi, Some sec =>
      if (1 <=? mo) && (mo <=? 12) && (1 <=? d) && (d <=? 31)
         && (h <=? 23) && (mi <=? 59) && (sec <=? 59)
      then Some (mkTimestamp y mo d h mi sec) else None
  | _, _, _, _, _, _ => None
  end.

(** Chronological order: lexicographic on the six fields. *)
Fixpoint lex_leb (a b : list Z) : bool :=
  match a, b with
  | x :: a', y :: b' => (x <? y) || ((x =? y) && lex_leb a' b')
  | _, _ => true
  end.

Definition ts_fields (t : Timestamp) : list Z :=
  [ts_year t; ts_month t; ts_day t; ts_hour t; ts_minute t; ts_second t].

Definition ts_leb (a b : Timestamp) : bool := lex_leb (ts_fields a) (ts_fields b).

(** ** Frames *)

Inductive cell :=
| CStr (s : string)
| CNum (x : float)
| CTime (t : Timestamp).

(** A frame: its column labels and its rows, in index order. *)
Record DataFrame := mkDataFrame {
  df_columns : gset string;
  df_rows : list (gmap string cell)
}.

(** The two ways a frame operation of the client ends. *)
Inductive result (A : Type) :=
| Ok (a : A)
| KeyError (col : string).
Arguments Ok {A} a.
Arguments KeyError {A} col.

Definition bind_result {A B} (x : result A) (f : A -> result B) : result B :=
  match x with
  | Ok a => f a
  | KeyError c => KeyError c
  end.

Notation "'try!' x ':=' e 'in' k" := (bind_result e (fun x => k))
  (at level 10, x name, e at level 200, k at level 200).

(** Conversions of pandas, with [errors="coerce"]: what does not parse becomes
    NaN (a float) or NaT (a null). [pd.to_numeric] reads each element by
    itself. [pd.to_datetime] converts a column as a whole (the format it
    reads the elements with can depend on the other elements), into a column
    of the same length. *)
Class Pandas := {
  to_numeric : option cell -> float;
  to_datetime : list (option cell) -> list (option Timestamp);
  to_datetime_length : forall col, length (to_datetime col) = length col
}.

(** [pd.isna] on one element. *)
Definition isna (v : option cell) : bool :=
  match v with
  | None => true
  | Some (CNum x) => is_nan x
  | Some _ => false
  end.

(** [pd.DataFrame(batch)] for a list of JSON records: a column per key. *)
Definition DataFrame_of_records (batch : list (gmap string cell)) : DataFrame :=
  {| df_columns := ⋃ (dom <$> batch); df_rows := batch |}.

(** [pd.concat(chunks, ignore_index=True)] *)
Definition pd_concat (chunks : list DataFrame) : DataFrame :=
  {| df_columns := ⋃ (df_columns <$> chunks);
     df_rows := concat (df_rows <$> chunks) |}.

(** The rows of a frame use only its column labels. *)
Definition wf_frame (df : DataFrame) : Prop :=
  forall (r : gmap string cell) (c : string),
    r ∈ df_rows df -> is_Some (r !! c) -> c ∈ df_columns df.

(** The values of a column, row by row. *)
Definition column (df : DataFrame) (col : string) : list (option cell) :=
  (fun r : gmap string cell => r !! col) <$> df_rows df.

(** [df[col]]: the column as a series, or [KeyError]. *)
Definition getitem (df : DataFrame) (col : string) : result (list (option cell)) :=
  if decide (col ∈ df_columns df) then Ok (column df col) else KeyError col.

(** An element of a datetime column: a timestamp, or NaT. *)
Definition time_cell (d : option Timestamp) : option cell := CTime <$> d.

Definition set_cell (col : string) (r : gmap string cell) (v : option cell)
  : gmap string cell :=
  match v with
  | Some c => <[col := c]> r
  | None => delete col r
  end.

(** [df[col] = series], for a series with the index of [df]. *)
Definition setitem (df : DataFrame) (col : string) (vals : list (option cell))
  : DataFrame :=
  {| df_columns := {[col]} ∪ df_columns df;
     df_rows := zip_with (set_cell col) (df_rows df) vals |}.

(** [df[mask]] for a boolean series [mask]. *)
Definition loc_rows {A} (rows : list A) (mask : list bool) : list A :=
  fst <$> filter (fun p : A * bool => snd p = true) (zip rows mask).

Definition loc (df : DataFrame) (mask : list bool) : DataFrame :=
  {| df_columns := df_columns df; df_rows := loc_rows (df_rows df) mask |}.

(** A column has dtype object when it holds a string. Frames built from the
    JSON records of the API hold strings; a column that mixes numbers and
    timestamps without a string is not taken as an object column. *)
Definition is_object_col (df : DataFrame) (col : string) : bool :=
  existsb (fun r : gmap string cell =>
             match r !! col with Some (CStr _) => true | _ => false end)
          (df_rows df).

(** [df.select_dtypes(include="object").columns] *)
Definition select_dtypes_object (df : DataFrame) : gset string :=
  filter (fun c => is_object_col df c = true) (df_columns df).

Section Strip.
Context {pystr : PyStr}.

(** One element under [.str.strip()]: NaN for what is not a string. *)
Definition str_strip_cell (c : cell) : option cell :=
  match c with
  | CStr s => Some (CStr (strip s))
  | _ => None
  end.

Definition strip_row (cols : gset string) (r : gmap string cell)
  : gmap string cell :=
  map_imap (fun k c => if decide (k ∈ cols) then str_strip_cell c else Some c) r.

(** [df[cols] = df[cols].apply(lambda c: c.str.strip())] *)
Definition strip_columns (df : DataFrame) (cols : gset string) : DataFrame :=
  {| df_columns := df_columns df;
     df_rows := strip_row cols <$> df_rows df |}.

End Strip.

(** [df.dropna(subset=cols)] *)
Fixpoint dropna (df : DataFrame) (subset : list string) : result DataFrame :=
  match subset with
  | [] => Ok df
  | col :: rest =>
      try! s := getitem df col in
      dropna (loc df (negb ∘ isna <$> s)) rest
  end.

(** One element of a float series compared with [> 0]. *)
Definition gt0 (v : option cell) : bool :=
  match v with
  | Some (CNum x) => (0 <? x)%float
  | _ => false
  end.

(** [series.fillna(0)] on one element of a float series. *)
Definition fillna0 (x : float) : float := if is_nan x then 0%float else x.

(** ** src/ingest/secop_client.py *)

(** The query parameters of one GET request. *)
Record params := mkParams {
  p_select : string;
  p_where : string;
  p_limit : Z;
  p_offset : Z;
  p_order : string
}.

(** What [requests.get(...)], [raise_for_status()] and [json()] give: the
    decoded page, or a [requests.exceptions.RequestException]. *)
Inductive response :=
| Json (batch : list (gmap string cell))
| RequestException.

Class Requests := { requests_get : string -> params -> response }.

Module SecopClient.
Import Settings.

Definition COLUMNS : list string :=
  [ "id_contrato"; "codigo_entidad"; "nit_entidad"; "nombre_entidad";
    "departamento"; "ciudad"; "orden"; "sector"; "rama"; "codigo_proveedor";
    "documento_proveedor"; "proveedor_adjudicado"; "modalidad_de_contratacion";
    "tipo_de_contrato"; "estado_contrato"; "codigo_de_categoria_principal";
    "descripcion_del_proceso"; "objeto_del_contrato"; "fecha_de_firma";
    "fecha_de_inicio_del_contrato"; "fecha_de_fin_del_contrato";
    "valor_del_contrato"; "dias_adicionados"; "destino_gasto";
    "origen_de_los_recursos"; "espostconflicto"; "es_pyme";
    "duraci_n_del_contrato" ].

Definition DATE_COLS : list string :=
  [ "fecha_de_firma"; "fecha_de_inicio_del_contrato";
    "fecha_de_fin_del_contrato" ].

(** The [$where] text of [fetch_page]. *)
Definition where_text : string :=
  ("fecha_de_inicio_del_contrato >= '" ++ TRAIN_START ++ "T00:00:00' "
   ++ "AND fecha_de_inicio_del_contrato <= '" ++ VALID_END ++ "T23:59:59' "
   ++ "AND valor_del_contrato > '0'")%string.

(** The two timestamps that [where_text] compares the start date with. *)
Definition start_lower_bound : option Timestamp :=
  parse_iso (TRAIN_START ++ "T00:00:00")%string.

Definition start_upper_bound : option Timestamp :=
  parse_iso (VALID_END ++ "T23:59:59")%string.

(** The start-date condition of [where_text] on a record's start date. *)
Definition where_start_date (t : Timestamp) : bool :=
  match start_lower_bound, start_upper_bound with
  | Some lo, Some hi => ts_leb lo t && ts_leb t hi
  | _, _ => false
  end.

Section Client.
Context {pandas : Pandas} {requests : Requests} {pystr : PyStr}.

Definition fetch_page (offset limit : Z) : response :=
  requests_get SECOP_ENDPOINT
    {| p_select := String.concat "," COLUMNS;
       p_where := where_text;
       p_limit := limit;
       p_offset := offset;
       p_order := "fecha_de_inicio_del_contrato ASC" |}.

(** One round of the loop over [DATE_COLS]. *)
Definition parse_date_col (df : DataFrame) (col : string) : DataFrame :=
  if decide (col ∈ df_columns df)
  then setitem df col (time_cell <$> to_datetime (column df col))
  else df.

Definition clean_dataframe (df : DataFrame) : result DataFrame :=
  try! valor := getitem df "valor_del_contrato" in
  let df := setitem df "valor_del_contrato"
              ((fun v => Some (CNum (to_numeric v))) <$> valor) in
  try! dias := getitem df "dias_adicionados" in
  let df := setitem df "dias_adicionados"
              ((fun v => Some (CNum (fillna0 (to_numeric v)))) <$> dias) in
  let df := foldl parse_date_col df DATE_COLS in
  let str_cols := select_dtypes_object df in
  let df := strip_columns df str_cols in
  try! df := dropna df ["valor_del_contrato"; "fecha_de_inicio_del_contrato"] in
  try! valor := getitem df "valor_del_contrato" in
  let df := loc df (gt0 <$> valor) in
  Ok df.

(** The frame inside [clean_dataframe] once the numeric and the date columns
    are converted, before the strings are stripped. *)
Definition converted (df : DataFrame) : DataFrame :=
  let df := setitem df "valor_del_contrato"
              ((fun v => Some (CNum (to_numeric v)))
                 <$> column df "valor_del_contrato") in
  let df := setitem df "dias_adicionados"
              ((fun v => Some (CNum (fillna0 (to_numeric v))))
                 <$> column df "dias_adicionados") in
  foldl parse_date_col df DATE_COLS.

(** A row with a contract value that is a number, not NaN and above zero, and
    with a start date that is a timestamp. *)
Definition cleaned_row (r : gmap string cell) : Prop :=
  (exists x, r !! "valor_del_contrato" = Some (CNum x)
             /\ is_nan x = false /\ (0 <? x)%float = true)
  /\ (exists t, r !! "fecha_de_inicio_del_contrato" = Some (CTime t)).

(** The variables of the [while True] loop of [pull_data]. *)
Record loop_state := mkLoop {
  chunks : list DataFrame;
  offset : Z;
  total_fetched : Z
}.

Inductive control :=
| Continue (st : loop_state)
| Break (st : loop_state).

Definition page_limit (max_rows : option Z) (st : loop_state) : Z :=
  match max_rows with
  | None => API_PAGE_SIZE
  | Some m => Z.min API_PAGE_SIZE (m - total_fetched st)
  end.

(** The three updates after a page that is not empty. *)
Definition advance (st : loop_state) (batch : list (gmap string cell))
  : loop_state :=
  {| chunks := chunks st ++ [DataFrame_of_records batch];
     total_fetched := total_fetched st + Z.of_nat (length batch);
     offset := offset st + Z.of_nat (length batch) |}.

(** One iteration of the loop. *)
Definition loop_body (max_rows : option Z) (st : loop_state) : control :=
  let limit := page_limit max_rows st in
  if (if max_rows is Some _ then limit <=? 0 else false) then Break st else
  match fetch_page (offset st) limit with
  | RequestException => Break st
  | Json [] => Break st
  | Json batch =>
      let st' := advance st batch in
      if Z.of_nat (length batch) <? limit then Break st' else Continue st'
  end.

Definition loop_init : loop_state :=
  {| chunks := []; offset := 0; total_fetched := 0 |}.

(** The loop, run for at most [fuel] iterations. *)
Fixpoint fetch_loop (fuel : nat) (max_rows : option Z) (st : loop_state)
  : option loop_state :=
  match fuel with
  | O => None
  | S fuel' =>
      match loop_body max_rows st with
      | Break st' => Some st'
      | Continue st' => fetch_loop fuel' max_rows st'
      end
  end.

(** How a call of [pull_data] ends: it returns [None] without a file, it
    writes the frame to the file, or [clean_dataframe] raises. *)
Inductive outcome :=
| NoData
| Saved (output_filename : string) (df : DataFrame)
| Raised (col : string).

Definition pull_data (fuel : nat) (max_rows : option Z) (output_filename : string)
  : option outcome :=
  match fetch_loop fuel max_rows loop_init with
  | None => None
  | Some st =>
      Some (match chunks st with
            | [] => NoData
            | _ =>
                match clean_dataframe (pd_concat (chunks st)) with
                | Ok df => Saved output_filename df
                | KeyError c => Raised c
                end
            end)
  end.

(** The rows that the loop has fetched when it stops: the frame that
    [pull_data] hands to [clean_dataframe]. *)
Definition fetched (fuel : nat) (max_rows : option Z) : DataFrame :=
  match fetch_loop fuel max_rows loop_init with
  | Some st => pd_concat (chunks st)
  | None => pd_concat []
  end.

(** The values of [id_contrato] once [.str.strip()] has passed over them. *)
Definition stripped_ids (df : DataFrame) : list (option cell) :=
  (fun v => v ≫= str_strip_cell) <$> column df "id_contrato".

(** The states at the head of an iteration of the loop. *)
Inductive at_loop_head (max_rows : option Z) : loop_state -> Prop :=
| head_init : at_loop_head max_rows loop_init
| head_next st st' :
    at_loop_head max_rows st ->
    loop_body max_rows st = Continue st' ->
    at_loop_head max_rows st'.

(** The bookkeeping of the loop: [total_fetched] and [offset] count the rows
    of the chunks, and every chunk is a frame built from records. *)
Definition counted (st : loop_state) : Prop :=
  total_fetched st = Z.of_nat (length (df_rows (pd_concat (chunks st)))) /\
  offset st = total_fetched st /\
  Forall wf_frame (chunks st).

(** No page is longer than the limit it was requested with. *)
Definition pages_bounded : Prop :=
  forall (off lim : Z) (batch : list (gmap string cell)),
    0 < lim -> fetch_page off lim = Json batch ->
    Z.of_nat (length batch) <= lim.

End Client.
End SecopClient.

(** ** dashboard/app.py *)

(** [re.search(pat, s)], as [Series.str.contains(pat)] uses it. *)
Class Regex := { re_search : string -> string -> bool }.

Module Dashboard.

(** A row of [risk_scores.parquet] with the columns the dashboard reads.
    [None] is a null. *)
Record Contract := mkContract {
  id_contrato : option string;
  codigo_entidad : option string;
  codigo_proveedor : option string;
  valor_del_contrato : float;
  year : option Z;
  sector : option string;
  departamento : option string;
  risk_tier : option string;
  risk_score_calibrated : float;
  process_anomaly_score : float;
  splitting_score : float;
  network_score : float;
  is_direct : option bool;
  is_modified : option bool;
  fecha_de_inicio_del_contrato : option Timestamp
}.

(** [series.between(lo, hi)] on one element: both ends included, a null is
    outside. *)
Definition between (lo hi : Z) (v : option Z) : bool :=
  match v with
  | Some y => (lo <=? y) && (y <=? hi)
  | None => false
  end.

(** [series.isin(values)] on one element, for a list of strings. *)
Definition isin (values : list string) (v : option string) : bool :=
  match v with
  | Some s => bool_decide (s ∈ values)
  | None => false
  end.

(** [series.astype(str)] on one element. *)
Definition astype_str (v : option string) : string :=
  match v with
  | Some s => s
  | None => "nan"
  end.

(** [a & b] on boolean series with the same index. *)
Definition series_and (a b : list bool) : list bool := zip_with andb a b.

Definition apply_filters (df : list Contract) (years : Z * Z)
    (sectors tiers depts : list string) : list Contract :=
  let out := loc_rows df (between (fst years) (snd years) ∘ year <$> df) in
  let out := if list_truthy tiers
             then loc_rows out (isin tiers ∘ risk_tier <$> out) else out in
  let out := if list_truthy sectors
             then loc_rows out (isin sectors ∘ sector <$> out) else out in
  let out := if list_truthy depts
             then loc_rows out (isin depts ∘ departamento <$> out) else out in
  out.

Section Explorer.
Context {regex : Regex} {pystr : PyStr}.

(** The boolean mask of the Contract Explorer tab. *)
Definition explorer_mask (df : list Contract) (selected_years : Z * Z)
    (selected_sectors selected_tiers selected_dept : list string)
    (search_vendor search_agency : string) (min_risk : float) : list bool :=
  let mask := between (fst selected_years) (snd selected_years) ∘ year <$> df in
  let mask := if list_truthy selected_tiers
              then series_and mask (isin selected_tiers ∘ risk_tier <$> df)
              else mask in
  let mask := if list_truthy selected_sectors
              then series_and mask (isin selected_sectors ∘ sector <$> df)
              else mask in
  let mask := if list_truthy selected_dept
              then series_and mask (isin selected_dept ∘ departamento <$> df)
              else mask in
  let mask := if str_truthy (strip search_vendor)
              then series_and mask
                     (re_search (strip search_vendor) ∘ astype_str
                        ∘ codigo_proveedor <$> df)
              else mask in
  let mask := if str_truthy (strip search_agency)
              then series_and mask
                     (re_search (strip search_agency) ∘ astype_str
                        ∘ codigo_entidad <$> df)
              else mask in
  let mask := if (0 <? min_risk)%float
              then series_and mask
                     ((fun r => (min_risk <=? risk_score_calibrated r)%float) <$> df)
              else mask in
  mask.

End Explorer.

(** The column labels with which the script indexes the per-contract table
    ([df], [filtered], [agency_df]), place by place. *)
Definition load_contracts_columns : list string :=
  ["fecha_de_inicio_del_contrato"].

Definition sidebar_columns : list string := ["year"; "sector"; "departamento"].

Definition apply_filters_columns : list string :=
  ["year"; "risk_tier"; "sector"; "departamento"].

Definition overview_columns : list string :=
  ["valor_del_contrato"; "risk_tier"; "is_direct"; "year"; "id_contrato"; "sector"].

Definition drilldown_columns : list string :=
  ["codigo_entidad"; "sector"; "valor_del_contrato"; "risk_score_calibrated";
   "risk_tier"; "codigo_proveedor"; "fecha_de_inicio_del_contrato";
   "id_contrato"; "process_anomaly_score"; "splitting_score"; "network_score"].

Definition mask_columns : list string :=
  ["year"; "risk_tier"; "sector"; "departamento"; "codigo_proveedor";
   "codigo_entidad"; "risk_score_calibrated"].

Definition display_cols : list string :=
  ["id_contrato"; "codigo_entidad"; "codigo_proveedor"; "valor_del_contrato";
   "year"; "sector"; "risk_tier"; "risk_score_calibrated";
   "process_anomaly_score"; "splitting_score"; "network_score";
   "is_direct"; "is_modified"].

Definition contract_columns_read : list string :=
  load_contracts_columns ++ sidebar_columns ++ apply_filters_columns
  ++ overview_columns ++ drilldown_columns ++ mask_columns ++ display_cols.

End Dashboard.

(** ** The scored table and the tiers, from the specification *)

Module Scoring.
Import Settings.

(** Modelled from the spec: the per-contract output schema of the scoring
    core (section 6), which no source file declares. The fields are id, the
    three sub-scores, composite score, tier, year, sector, department, agency
    id, vendor id, value, is_direct, is_modified, under the column names of
    section 3 and of the ingested table. *)
Definition per_contract_schema : list string :=
  ["id_contrato"; "process_anomaly_score"; "splitting_score"; "network_score";
   "risk_score_calibrated"; "risk_tier"; "year"; "sector"; "departamento";
   "codigo_entidad"; "codigo_proveedor"; "valor_del_contrato";
   "is_direct"; "is_modified"].

Inductive Tier := Low | Medium | High.

(** Modelled from the spec: the bands of the tiering step (section 3: High
    from the upper cut point up, Low up to the lower cut point), which no
    source file contains. *)
Definition in_high_band (score : float) : bool := (TIER_HIGH <=? score)%float.

Definition in_medium_band (score : float) : bool :=
  ((TIER_LOW <? score) && (score <? TIER_HIGH))%float.

(** Modelled from the spec: the tiering step of the score combiner (section
    4.5, step 3), which no source file contains: High if the score is in the
    high band, else Medium if in the medium band, else Low. *)
Definition risk_tier (score : float) : Tier :=
  if in_high_band score then High
  else if in_medium_band score then Medium
  else Low.

End Scoring.

(** ** Sample data *)

Module Samples.

Definition float_of_Z (z : Z) : float := PrimFloat.of_uint63 (Uint63.of_Z z).

(** One element of a column of timestamps [YYYY-MM-DDTHH:MM:SS]. *)
Definition iso_datetime (v : option cell) : option Timestamp :=
  match v with
  | Some (CStr s) => parse_iso s
  | Some (CTime t) => Some t
  | None => None
  | Some (CNum _) => None
  end.

(** An instance of [Pandas] for the examples. It reads unsigned decimal
    integers below 2^53 and columns of timestamps [YYYY-MM-DDTHH:MM:SS], on
    which it agrees with pandas, and coerces any other string to a null. *)
Definition digits_pandas : Pandas :=
  {| to_numeric v :=
       match v with
       | Some (CStr s) =>
           match parse_digits s with
           | Some z => if z <? 2 ^ 53 then float_of_Z z else nan
           | None => nan
           end
       | Some (CNum x) => x
       | _ => nan
       end;
     to_datetime col := iso_datetime <$> col;
     to_datetime_length col := length_fmap iso_datetime col |}.

(** An instance of [PyStr] for the examples: it strips ASCII white space, as
    Python does on strings without other white space. *)
Definition ascii_pystr : PyStr.
Proof.
  refine {| strip := ascii_strip |}.
  assert (forall s, blank s = true -> lstrip s = EmptyString) as Hl.
  { unfold blank. induction s as [| a s IH]; [reflexivity |].
    simpl. intros H. apply andb_prop in H. destruct H as [Ha Hs].
    rewrite Ha. apply IH. exact Hs. }
  intros s Hs. unfold ascii_strip. rewrite (Hl s Hs). reflexivity.
Defined.

(** A server holding the records [data]: it answers a request with the page
    of [data] from [$offset] on, of at most [$limit] records, and refuses a
    negative limit or offset. *)
Definition page_server (data : list (gmap string cell)) : Requests :=
  {| requests_get _ p :=
       if (p_limit p <? 0) || (p_offset p <? 0) then RequestException
       else Json (take (Z.to_nat (p_limit p)) (drop (Z.to_nat (p_offset p)) data)) |}.

(** A JSON record with the four fields the examples need. *)
Definition record (id valor fecha : string) : gmap string cell :=
  <["id_contrato" := CStr id]>
    (<["valor_del_contrato" := CStr valor]>
       (<["dias_adicionados" := CStr "0"]>
          (<["fecha_de_inicio_del_contrato" := CStr fecha]> ∅))).

Definition three_records : list (gmap string cell) :=
  [ record "CO1.PCCNTR.1" "1500000" "2019-03-01T00:00:00";
    record "CO1.PCCNTR.2" "0" "2020-07-15T00:00:00";
    record "CO1.PCCNTR.3" "98000000" "not a date" ].

(** The same contract twice. *)
Definition repeated_records : list (gmap string cell) :=
  [ record "CO1.PCCNTR.1" "1500000" "2019-03-01T00:00:00";
    record "CO1.PCCNTR.1" "1500000" "2019-03-01T00:00:00" ].

(** An instance of [Regex] for the examples: a pattern without
    metacharacters matches a string that it is a prefix of. *)
Definition prefix_regex : Regex :=
  {| re_search pat s := String.prefix pat s |}.

Definition scored (y : Z) (sec dept tier vendor : string) (score : float)
  : Dashboard.Contract :=
  Dashboard.mkContract (Some "CO1.PCCNTR.1") (Some "700") (Some vendor)
    1500000%float (Some y) (Some sec) (Some dept) (Some tier) score
    0%float 0%float 0%float (Some true) (Some false) None.

Definition scored_table : list Dashboard.Contract :=
  [ scored 2019 "Salud" "Antioquia" "High" "V1" 0.8%float;
    scored 2020 "Salud" "Cauca" "Low" "V2" 0.2%float;
    scored 2021 "Defensa" "Antioquia" "Medium" "V1" 0.5%float;
    scored 2022 "Salud" "Antioquia" "High" "V3" 0.85%float ].

End Samples.

(** ** [clean_dataframe], row by row *)

Module CleanRow.
Import SecopClient.

Section Rows.
Context {pandas : Pandas}.

(** The tests of [dropna] and of [> 0], read on the frame as it was fetched,
    one entry per row: the value converts to a number that is not NaN, the
    entry of the converted start-date column is a timestamp, and the number
    is above zero. *)
Definition keep_mask (df : DataFrame) : list bool :=
  zip_with
    (fun v d =>
       negb (is_nan (to_numeric v))
       && (if d is Some _ then true else false)
       && (0 <? to_numeric v)%float)
    (column df "valor_del_contrato")
    (to_datetime (column df "fecha_de_inicio_del_contrato")).

(** The number of [True] in a boolean series. *)
Definition count_true (mask : list bool) : nat :=
  length (List.filter (fun b : bool => b) mask).

End Rows.
End CleanRow.

(** ** The script entry of secop_client.py *)

Module SecopMain.
Import SecopClient.

Section Main.
Context {pandas : Pandas} {requests : Requests} {pystr : PyStr}.

(** The body under [if __name__ == "__main__"], for the parsed arguments
    [--test] and [--max-rows]. *)
Definition main (fuel : nat) (test : bool) (max_rows : option Z)
  : option outcome :=
  if test then pull_data fuel (Some 1000) "secop_test.parquet"
  else pull_data fuel max_rows "secop_raw.parquet".

End Main.
End SecopMain.

(** ** The tabs of dashboard/app.py *)

Module DashboardTabs.
Import Dashboard.

(** [series == value] on one element: a null equals nothing. *)
Definition eq_elem (v x : option string) : bool :=
  match v, x with
  | Some a, Some b => String.eqb a b
  | _, _ => false
  end.

(** [filtered["codigo_entidad"].unique()], before it is sorted into
    [agency_options]: the values in order of first appearance. *)
Fixpoint unique (l : list (option string)) : list (option string) :=
  match l with
  | [] => []
  | x :: l' => x :: List.filter (fun y => negb (bool_decide (y = x))) (unique l')
  end.

(** [agency_df = filtered[filtered["codigo_entidad"] == selected_agency]] *)
Definition agency_df (filtered : list Contract) (selected_agency : option string)
  : list Contract :=
  loc_rows filtered
    ((fun r => eq_elem (codigo_entidad r) selected_agency) <$> filtered).

(** [mask.sum()] *)
Definition mask_sum (mask : list bool) : nat :=
  length (List.filter (fun b : bool => b) mask).

(** [DataFrame.sort_values]: some rearrangement of the rows (the order among
    equal keys is not fixed by pandas). *)
Class SortValues := {
  sort_values : list Contract -> list Contract;
  sort_values_perm : forall l, sort_values l ≡ₚ l
}.

(** The table of the Contract Explorer:
    [df.loc[mask, available_cols].sort_values(...).head(200)], as rows; the
    choice of columns leaves the rows and their number as they are. *)
Definition explorer_result `{SortValues} (df : list Contract) (mask : list bool)
  : list Contract :=
  take 200 (sort_values (loc_rows df mask)).

End DashboardTabs.

(** ** More sample data *)

Module MoreSamples.

(** A server that never runs out: every page is as long as asked. *)
Definition endless_server : Requests :=
  {| requests_get _ p :=
       Json (replicate (Z.to_nat (p_limit p))
               (Samples.record "CO1.PCCNTR.1" "1500000" "2019-03-01T00:00:00")) |}.

(** A server that is down. *)
Definition failing_server : Requests :=
  {| requests_get _ _ := RequestException |}.

(** Records without the field [dias_adicionados]. *)
Definition records_without_dias : list (gmap string cell) :=
  [ delete "dias_adicionados"
      (Samples.record "CO1.PCCNTR.1" "1500000" "2019-03-01T00:00:00") ].

(** Records with white space around their strings. *)
Definition padded_records : list (gmap string cell) :=
  [ Samples.record "  CO1.PCCNTR.7 " "1500000" "2019-03-01T00:00:00";
    Samples.record "CO1.PCCNTR.8" "250" "2021-11-30T00:00:00" ].

(** Rows are left in their order. *)
Definition unsorted : DashboardTabs.SortValues :=
  {| DashboardTabs.sort_values l := l;
     DashboardTabs.sort_values_perm l := reflexivity l |}.

End MoreSamples.

(** ** Ways an API can answer *)

Module ApiBehaviour.
Import SecopClient.

Section Api.
Context {requests : Requests}.

(** Pages that are always full. *)
Definition always_full : Prop :=
  forall off lim, 0 < lim ->
    exists batch, fetch_page off lim = Json batch /\
                  lim <= Z.of_nat (length batch).

(** An API that holds the records [data] and pages through them in a fixed
    order: a request for [lim] records from [off] on gets the records at
    positions [off], ..., [off + lim - 1], as far as there are any. *)
Definition serves (data : list (gmap string cell)) : Prop :=
  forall off lim, 0 <= off -> 0 < lim ->
    fetch_page off lim
    = Json (take (Z.to_nat lim) (drop (Z.to_nat off) data)).

End Api.
End ApiBehaviour.

(** ** The row-wise tests of the dashboard filters *)

Module DashboardRows.
Import Dashboard.

(** The test that [apply_filters] puts on one row: the year range, and each
    selection that is not empty. *)
Definition passes (years : Z * Z) (sectors tiers depts : list string)
    (r : Contract) : bool :=
  between (fst years) (snd years) (year r)
  && (if list_truthy tiers then isin tiers (risk_tier r) else true)
  && (if list_truthy sectors then isin sectors (sector r) else true)
  && (if list_truthy depts then isin depts (departamento r) else true).

(** The test of [df["risk_score_calibrated"] >= min_risk] on one row, made
    only when [min_risk > 0]. *)
Definition meets_min_risk (min_risk : float) (r : Contract) : bool :=
  if (0 <? min_risk)%float
  then (min_risk <=? risk_score_calibrated r)%float else true.

End DashboardRows.

(** ** The sidebar of dashboard/app.py *)

Module Sidebar.
Import Dashboard.

(** [(int(df["year"].min()), int(df["year"].max()))], the ends and the default
    value of the year slider; [min] and [max] skip nulls, and [int] raises
    when no year is left. *)
Definition year_bounds (df : list Contract) : option (Z * Z) :=
  match omap year df with
  | [] => None
  | y :: ys => Some (foldr Z.min y ys, foldr Z.max y ys)
  end.

(** The default of the tier selection. *)
Definition default_tiers : list string := ["High"; "Medium"; "Low"].

End Sidebar.

(** * Properties *)

(** ** Configuration *)

Section SettingsFacts.
Import Settings.

(** C1: the four combination weights are the binary64 numbers written 0.55,
    0.25, 0.10 and 0.10; added in binary64 they are within 1e-9 of 1.0, and so
    is the sum of their exact values. *)
Theorem weights_sum_to_one :
  WEIGHTS = [0.55; 0.25; 0.10; 0.10]%float /\
  denotes WEIGHT_PROCESS_ANOMALY (55 # 100) = true /\
  denotes WEIGHT_SPLITTING (25 # 100) = true /\
  denotes WEIGHT_NETWORK (10 # 100) = true /\
  denotes WEIGHT_COMMUNITY (10 # 100) = true /\
  (abs (float_sum WEIGHTS - 1) <=? 1e-9)%float = true /\
  exists q, exact_sum WEIGHTS = Some q /\ (Qabs (q - 1) <= 1 # 1000000000)%Q.
Proof.
  repeat split; try (vm_compute; reflexivity).
  eexists. split; [vm_compute; reflexivity |].
  apply Qle_bool_imp_le. vm_compute. reflexivity.
Qed.

(** C7: the splitting windows are the three day counts 30, 60 and 90, and the
    threshold proximity is the binary64 number written 0.10, that is 10%. *)
Theorem splitting_parameters :
  SPLITTING_WINDOWS_DAYS = [30; 60; 90] /\
  length SPLITTING_WINDOWS_DAYS = 3%nat /\
  THRESHOLD_PROXIMITY_PCT = 0.10%float /\
  denotes THRESHOLD_PROXIMITY_PCT (10 # 100) = true.
Proof. repeat split; vm_compute; reflexivity. Qed.

End SettingsFacts.

(** ** Tiers *)

Section TierFacts.
Import Settings Scoring.

Lemma risk_tier_high (s : float) :
  risk_tier s = High <-> in_high_band s = true.
Proof.
  unfold risk_tier.
  destruct (in_high_band s), (in_medium_band s); split; congruence.
Qed.

Lemma risk_tier_medium (s : float) :
  risk_tier s = Medium <-> in_high_band s = false /\ in_medium_band s = true.
Proof.
  unfold risk_tier.
  destruct (in_high_band s), (in_medium_band s); intuition congruence.
Qed.

Lemma risk_tier_low (s : float) :
  risk_tier s = Low <-> in_high_band s = false /\ in_medium_band s = false.
Proof.
  unfold risk_tier.
  destruct (in_high_band s), (in_medium_band s); intuition congruence.
Qed.

(** C5: the two cut points are the binary64 numbers written 0.3 and 0.6, the
    lower one strictly below the upper one, and the tier is a function of the
    calibrated score alone: High exactly in the high band, Medium exactly in
    the medium band outside the high one, Low elsewhere. *)
Theorem tier_cut_points :
  TIER_LOW = 0.3%float /\ TIER_HIGH = 0.6%float /\
  denotes TIER_LOW (3 # 10) = true /\ denotes TIER_HIGH (6 # 10) = true /\
  (TIER_LOW <? TIER_HIGH)%float = true /\
  forall s : float,
    (risk_tier s = High <-> (TIER_HIGH <=? s)%float = true) /\
    (risk_tier s = Medium <->
       (TIER_HIGH <=? s)%float = false /\
       ((TIER_LOW <? s) && (s <? TIER_HIGH))%float = true) /\
    (risk_tier s = Low <->
       (TIER_HIGH <=? s)%float = false /\
       ((TIER_LOW <? s) && (s <? TIER_HIGH))%float = false).
Proof.
  do 5 (split; [vm_compute; reflexivity |]).
  intros s. split; [| split].
  - apply risk_tier_high.
  - apply risk_tier_medium.
  - apply risk_tier_low.
Qed.

Example risk_tier_at_cut_points :
  risk_tier 0.6 = High /\ risk_tier 0.59 = Medium /\ risk_tier 0.31 = Medium /\
  risk_tier 0.3 = Low /\ risk_tier 0 = Low /\ risk_tier 1 = High /\
  risk_tier nan = Low.
Proof. repeat split; vm_compute; reflexivity. Qed.

End TierFacts.

(** ** The date scope of the query and the threshold table *)

Section DateScope.
Import Settings SecopClient.

Lemma start_bounds :
  start_lower_bound = Some (mkTimestamp 2019 1 1 0 0 0) /\
  start_upper_bound = Some (mkTimestamp 2022 8 6 23 59 59).
Proof. split; vm_compute; reflexivity. Qed.

Lemma lex_leb_head (x y : Z) (a b : list Z) :
  lex_leb (x :: a) (y :: b) = true -> x <= y.
Proof.
  simpl. intros H. apply orb_prop in H. destruct H as [H | H].
  - apply Z.ltb_lt in H. lia.
  - apply andb_prop in H. destruct H as [H _]. apply Z.eqb_eq in H. lia.
Qed.

Lemma where_start_date_year (t : Timestamp) :
  where_start_date t = true -> 2019 <= ts_year t <= 2022.
Proof.
  unfold where_start_date. destruct start_bounds as [-> ->].
  intros H. apply andb_prop in H. destruct H as [Hlo Hhi].
  apply lex_leb_head in Hlo. apply lex_leb_head in Hhi. simpl in *. lia.
Qed.

Lemma SMMLV_years (y : Z) : 2019 <= y <= 2023 -> is_Some (SMMLV !! y).
Proof.
  intros H.
  assert (y = 2019 \/ y = 2020 \/ y = 2021 \/ y = 2022 \/ y = 2023) as Hy by lia.
  destruct Hy as [-> | [-> | [-> | [-> | ->]]]]; vm_compute; eauto.
Qed.

(** C4: a start date that satisfies the start-date condition of the query
    (from TRAIN_START 2019-01-01 to the end of VALID_END 2022-08-06) lies in a
    year that has an entry in the SMMLV table. *)
Theorem ingested_year_has_threshold (t : Timestamp) :
  where_start_date t = true -> is_Some (SMMLV !! ts_year t).
Proof.
  intros H. apply SMMLV_years. apply where_start_date_year in H. lia.
Qed.

Lemma ingested_year_has_threshold_witness :
  where_start_date (mkTimestamp 2020 5 17 10 30 0) = true /\
  is_Some (SMMLV !! 2020).
Proof.
  split; [vm_compute; reflexivity |].
  apply (ingested_year_has_threshold (mkTimestamp 2020 5 17 10 30 0)).
  vm_compute; reflexivity.
Defined.

Example year_outside_scope_has_no_threshold :
  SMMLV !! 2018 = None /\ SMMLV !! 2024 = None /\ SMMLV !! 2022 = Some 1000000.
Proof. repeat split; vm_compute; reflexivity. Qed.

End DateScope.

(** ** Columns the dashboard reads *)

Section Columns.
Import Dashboard Scoring.

Lemma Forall_bool_decide {A} (P : A -> Prop) `{Pdec : !forall x, Decision (P x)}
    (l : list A) :
  forallb (fun x => bool_decide (P x)) l = true -> Forall P l.
Proof.
  induction l as [| x l IH]; simpl; intros H; constructor.
  - apply andb_prop in H. destruct H as [H _]. by apply bool_decide_eq_true in H.
  - apply IH. apply andb_prop in H. tauto.
Qed.

(** C6, as stated, fails: the dashboard reads the start-date column, which is
    not a field of the per-contract schema. *)
Lemma start_date_read_outside_schema :
  ~ Forall (fun c => c ∈ per_contract_schema) contract_columns_read.
Proof.
  intros H. rewrite Forall_forall in H.
  specialize (H "fecha_de_inicio_del_contrato").
  assert ("fecha_de_inicio_del_contrato" ∈ per_contract_schema) as Hin.
  { apply H. unfold contract_columns_read, load_contracts_columns. set_solver. }
  apply (bool_decide_eq_true_2 _) in Hin. vm_compute in Hin. discriminate.
Qed.

(** C6, amended: every column the dashboard reads from the per-contract table
    is a field of the per-contract schema or the start-date column. *)
Theorem columns_read_in_schema_or_start_date :
  Forall (fun c => c ∈ per_contract_schema \/ c = "fecha_de_inicio_del_contrato")
         contract_columns_read.
Proof.
  apply (Forall_bool_decide
           (fun c : string =>
              c ∈ per_contract_schema \/ c = "fecha_de_inicio_del_contrato")).
  vm_compute. reflexivity.
Qed.

End Columns.

(** ** Boolean masks *)

Section Masks.
Context {A : Type}.

Lemma loc_rows_cons (x : A) (l : list A) (b : bool) (m : list bool) :
  loc_rows (x :: l) (b :: m) = if b then x :: loc_rows l m else loc_rows l m.
Proof.
  unfold loc_rows. simpl. rewrite filter_cons. simpl.
  destruct b; case_decide; simpl; first [reflexivity | congruence].
Qed.

Lemma loc_rows_nil_r (l : list A) : loc_rows l [] = [].
Proof. destruct l; reflexivity. Qed.

(** Selecting with the mask of a row-wise test keeps the rows that pass it. *)
Lemma loc_rows_fmap (p : A -> bool) (l : list A) :
  loc_rows l (p <$> l) = List.filter p l.
Proof.
  induction l as [| x l IH]; [reflexivity |].
  rewrite fmap_cons, loc_rows_cons. simpl. rewrite IH. reflexivity.
Qed.

Lemma series_and_fmap (p q : A -> bool) (l : list A) :
  Dashboard.series_and (p <$> l) (q <$> l) = (fun x => p x && q x) <$> l.
Proof.
  unfold Dashboard.series_and.
  induction l as [| x l IH]; [reflexivity |].
  rewrite !fmap_cons. simpl. rewrite IH. reflexivity.
Qed.

Lemma filter_twice (p q : A -> bool) (l : list A) :
  List.filter q (List.filter p l) = List.filter (fun x => p x && q x) l.
Proof.
  induction l as [| x l IH]; [reflexivity |].
  simpl. destruct (p x); simpl; [destruct (q x) |]; rewrite IH; reflexivity.
Qed.

(** Narrowing a selection by a second row-wise test, as [apply_filters] does,
    selects what the conjunction of the two masks selects. *)
Lemma loc_rows_narrow (p q : A -> bool) (l : list A) :
  loc_rows (loc_rows l (p <$> l)) (q <$> loc_rows l (p <$> l))
  = loc_rows l (Dashboard.series_and (p <$> l) (q <$> l)).
Proof.
  rewrite series_and_fmap, !loc_rows_fmap. apply filter_twice.
Qed.

End Masks.

(** ** The Contract Explorer mask and [apply_filters] *)

Section ExplorerFacts.
Import Dashboard.
Context {regex : Regex} {pystr : PyStr}.

(** C9: with an empty vendor search, an empty agency search and a minimum
    risk of 0, the rows of [df] that the Contract Explorer mask selects are
    the rows that [apply_filters] returns, in the same order. *)
Theorem explorer_mask_refines_apply_filters (df : list Contract)
    (selected_years : Z * Z)
    (selected_sectors selected_tiers selected_dept : list string) :
  loc_rows df (explorer_mask df selected_years selected_sectors selected_tiers
                 selected_dept "" "" 0%float)
  = apply_filters df selected_years selected_sectors selected_tiers selected_dept.
Proof.
  unfold explorer_mask, apply_filters.
  rewrite (strip_blank "" eq_refl). change (str_truthy "") with false.
  change (0 <? 0)%float with false. cbv iota.
  set (py := between (fst selected_years) (snd selected_years) ∘ year).
  destruct (list_truthy selected_tiers), (list_truthy selected_sectors),
    (list_truthy selected_dept);
    rewrite ?series_and_fmap, ?loc_rows_fmap, ?filter_twice;
    try reflexivity;
    apply List.filter_ext; intros x; rewrite ?andb_assoc; reflexivity.
Qed.

End ExplorerFacts.

Example explorer_selects_filtered_rows :
  loc_rows Samples.scored_table
    (Dashboard.explorer_mask (regex := Samples.prefix_regex)
       (pystr := Samples.ascii_pystr) Samples.scored_table
       (2019, 2021) ["Salud"] ["High"; "Low"] [] "" "" 0%float)
  = firstn 2 Samples.scored_table /\
  Dashboard.apply_filters Samples.scored_table (2019, 2021)
    ["Salud"] ["High"; "Low"] []
  = firstn 2 Samples.scored_table.
Proof. split; vm_compute; reflexivity. Qed.

Example explorer_search_narrows :
  loc_rows Samples.scored_table
    (Dashboard.explorer_mask (regex := Samples.prefix_regex)
       (pystr := Samples.ascii_pystr) Samples.scored_table
       (2019, 2022) [] [] [] " V1 " "" 0.6%float)
  = firstn 1 Samples.scored_table.
Proof. vm_compute. reflexivity. Qed.

(** ** Frame operations *)

Section FrameFacts.
Context {pystr : PyStr}.

Lemma zip_with_fmap_same {A B C} (F : A -> B -> C) (G : A -> B) (l : list A) :
  zip_with F l (G <$> l) = (fun x => F x (G x)) <$> l.
Proof.
  induction l as [| x l IH]; [reflexivity |].
  rewrite !fmap_cons. simpl. rewrite IH. reflexivity.
Qed.

Lemma set_cell_lookup_eq (col : string) (r : gmap string cell) (v : option cell) :
  set_cell col r v !! col = v.
Proof.
  destruct v; simpl; [apply lookup_insert_eq | apply lookup_delete_eq].
Qed.

Lemma set_cell_lookup_ne (col c : string) (r : gmap string cell) (v : option cell) :
  col <> c -> set_cell col r v !! c = r !! c.
Proof.
  intros Hne. destruct v; simpl;
    [by apply lookup_insert_ne | by apply lookup_delete_ne].
Qed.

(** Assigning to a column a series computed from that column, row by row. *)
Lemma setitem_rows (df : DataFrame) (col : string) (f : option cell -> option cell) :
  df_rows (setitem df col (f <$> column df col))
  = (fun r => set_cell col r (f (r !! col))) <$> df_rows df.
Proof.
  unfold setitem, column. simpl.
  rewrite <- list_fmap_compose. apply zip_with_fmap_same.
Qed.

Lemma getitem_Ok (df : DataFrame) (col : string) (s : list (option cell)) :
  getitem df col = Ok s -> col ∈ df_columns df /\ s = column df col.
Proof.
  unfold getitem. destruct (decide (col ∈ df_columns df));
    intros Heq; inversion Heq; auto.
Qed.

Lemma getitem_present (df : DataFrame) (col : string) :
  col ∈ df_columns df -> getitem df col = Ok (column df col).
Proof. intros H. unfold getitem. by rewrite decide_True. Qed.

Lemma loc_fmap_elem (df : DataFrame) (p : gmap string cell -> bool)
    (r : gmap string cell) :
  r ∈ df_rows (loc df (p <$> df_rows df)) <-> r ∈ df_rows df /\ p r = true.
Proof.
  unfold loc. simpl. rewrite loc_rows_fmap, !list_elem_of_In.
  apply List.filter_In.
Qed.

Lemma loc_column_elem (df : DataFrame) (col : string) (p : option cell -> bool)
    (r : gmap string cell) :
  r ∈ df_rows (loc df (p <$> column df col))
  <-> r ∈ df_rows df /\ p (r !! col) = true.
Proof.
  unfold column. rewrite <- list_fmap_compose. apply loc_fmap_elem.
Qed.

(** [dropna] returns when the columns of [subset] exist, keeps the columns,
    and keeps exactly the rows without a null in [subset]. *)
Lemma dropna_Ok (subset : list string) (df df' : DataFrame) :
  dropna df subset = Ok df' ->
  df_columns df' = df_columns df /\
  (forall c, c ∈ subset -> c ∈ df_columns df) /\
  (forall r, r ∈ df_rows df' ->
     r ∈ df_rows df /\ forall c, c ∈ subset -> isna (r !! c) = false).
Proof.
  revert df. induction subset as [| col rest IH]; intros df; simpl.
  - intros H. inversion H; subst. repeat split; auto.
    + intros c Hc. by apply not_elem_of_nil in Hc.
    + intros c Hc. by apply not_elem_of_nil in Hc.
  - destruct (getitem df col) as [s | e] eqn:Hget; simpl; [| discriminate].
    apply getitem_Ok in Hget. destruct Hget as [Hcol ->].
    intros H. apply IH in H. destruct H as (Hcols & Hsub & Hrows).
    simpl in Hcols. repeat split; auto.
    + intros c Hc. apply elem_of_cons in Hc. destruct Hc as [-> | Hc]; auto.
    + apply Hrows in H. destruct H as [H _].
      apply loc_column_elem in H. tauto.
    + intros c Hc. pose proof (Hrows r H) as [Hr Hna].
      apply elem_of_cons in Hc. destruct Hc as [-> | Hc]; auto.
      apply loc_column_elem in Hr. destruct Hr as [_ Hr].
      unfold compose in Hr. by apply negb_true_iff in Hr.
Qed.

Lemma dropna_present (subset : list string) (df : DataFrame) :
  (forall c, c ∈ subset -> c ∈ df_columns df) ->
  exists df', dropna df subset = Ok df'.
Proof.
  revert df. induction subset as [| col rest IH]; intros df Hsub; simpl.
  - eauto.
  - rewrite getitem_present by (apply Hsub; left). simpl.
    apply IH. intros c Hc. simpl. apply Hsub. by right.
Qed.

Lemma strip_row_lookup (cols : gset string) (r : gmap string cell) (c : string) :
  strip_row cols r !! c
  = r !! c ≫= (fun v => if decide (c ∈ cols) then str_strip_cell v else Some v).
Proof. unfold strip_row. apply map_lookup_imap. Qed.

End FrameFacts.

(** ** [clean_dataframe] *)

Section CleanFacts.
Import Settings SecopClient.
Context {pandas : Pandas} {pystr : PyStr}.

Abbreviation valor := "valor_del_contrato" (only parsing).
Abbreviation dias := "dias_adicionados" (only parsing).
Abbreviation fecha := "fecha_de_inicio_del_contrato" (only parsing).
Abbreviation id_col := "id_contrato" (only parsing).

Lemma setitem_column_eq (df : DataFrame) (col : string)
    (f : option cell -> option cell) :
  column (setitem df col (f <$> column df col)) col = f <$> column df col.
Proof.
  unfold column at 1. rewrite setitem_rows. unfold column.
  rewrite <- !list_fmap_compose. apply list_fmap_ext.
  intros i r _. unfold compose. apply set_cell_lookup_eq.
Qed.

Lemma setitem_column_ne (df : DataFrame) (col c : string)
    (f : option cell -> option cell) :
  col <> c -> column (setitem df col (f <$> column df col)) c = column df c.
Proof.
  intros Hne. unfold column at 1. rewrite setitem_rows. unfold column.
  rewrite <- !list_fmap_compose. apply list_fmap_ext.
  intros i r _. unfold compose. by apply set_cell_lookup_ne.
Qed.

(** Assigning a series as long as the frame to a column. *)
Lemma setitem_column_eq_any (df : DataFrame) (col : string)
    (vals : list (option cell)) :
  length vals = length (df_rows df) ->
  column (setitem df col vals) col = vals.
Proof.
  unfold column, setitem. cbn [df_rows]. generalize (df_rows df).
  induction vals as [| v vals IH]; intros [| r rows] Hlen;
    try discriminate; [reflexivity |].
  cbn [zip_with]. rewrite fmap_cons, set_cell_lookup_eq.
  f_equal. apply IH. simpl in Hlen. lia.
Qed.

Lemma setitem_column_ne_any (df : DataFrame) (col c : string)
    (vals : list (option cell)) :
  col <> c -> length vals = length (df_rows df) ->
  column (setitem df col vals) c = column df c.
Proof.
  intros Hne. unfold column, setitem. cbn [df_rows]. generalize (df_rows df).
  induction vals as [| v vals IH]; intros [| r rows] Hlen;
    try discriminate; [reflexivity |].
  cbn [zip_with]. rewrite !fmap_cons, (set_cell_lookup_ne col c r v Hne).
  f_equal. apply IH. simpl in Hlen. lia.
Qed.

Lemma to_datetime_column_length (df : DataFrame) (col : string) :
  length (time_cell <$> to_datetime (column df col)) = length (df_rows df).
Proof.
  rewrite length_fmap, to_datetime_length. unfold column. apply length_fmap.
Qed.

Lemma parse_date_col_columns (df : DataFrame) (col c : string) :
  c ∈ df_columns (parse_date_col df col) <-> c ∈ df_columns df.
Proof.
  unfold parse_date_col. destruct (decide (col ∈ df_columns df)); simpl;
    set_solver.
Qed.

Lemma parse_date_col_column_ne (df : DataFrame) (col c : string) :
  col <> c -> column (parse_date_col df col) c = column df c.
Proof.
  intros Hne. unfold parse_date_col.
  destruct (decide (col ∈ df_columns df)); [| reflexivity].
  apply setitem_column_ne_any; [exact Hne | apply to_datetime_column_length].
Qed.

Lemma parse_date_col_column_eq (df : DataFrame) (col : string) :
  col ∈ df_columns df ->
  column (parse_date_col df col) col
  = time_cell <$> to_datetime (column df col).
Proof.
  intros Hin. unfold parse_date_col. rewrite decide_True by done.
  apply setitem_column_eq_any, to_datetime_column_length.
Qed.

Lemma converted_columns (df : DataFrame) (c : string) :
  c ∈ df_columns (converted df)
  <-> c = valor \/ c = dias \/ c ∈ df_columns df.
Proof.
  unfold converted, DATE_COLS. simpl foldl.
  rewrite !parse_date_col_columns. simpl. set_solver.
Qed.

(** The value column of the converted frame holds floats. *)
Lemma converted_valor (df : DataFrame) :
  column (converted df) valor
  = (fun v => Some (CNum (to_numeric v))) <$> column df valor.
Proof.
  unfold converted, DATE_COLS. simpl foldl.
  rewrite !parse_date_col_column_ne by discriminate.
  rewrite (setitem_column_ne _ dias valor
             (fun v => Some (CNum (fillna0 (to_numeric v))))) by discriminate.
  apply (setitem_column_eq df valor (fun v => Some (CNum (to_numeric v)))).
Qed.

(** The start-date column of the converted frame holds timestamps and
    nulls. *)
Lemma converted_fecha (df : DataFrame) :
  fecha ∈ df_columns df ->
  column (converted df) fecha
  = time_cell <$> to_datetime (column df fecha).
Proof.
  intros Hin. unfold converted, DATE_COLS. simpl foldl.
  rewrite parse_date_col_column_ne by discriminate.
  rewrite parse_date_col_column_eq
    by (apply parse_date_col_columns; cbn [setitem df_columns];
        apply elem_of_union; right; apply elem_of_union; right; exact Hin).
  do 2 f_equal.
  rewrite parse_date_col_column_ne by discriminate.
  rewrite (setitem_column_ne _ dias fecha
             (fun v => Some (CNum (fillna0 (to_numeric v))))) by discriminate.
  apply (setitem_column_ne df valor fecha
           (fun v => Some (CNum (to_numeric v)))). discriminate.
Qed.

(** A column that the conversions do not name is left as it is. *)
Lemma converted_other (df : DataFrame) (c : string) :
  c <> valor -> c <> dias -> c ∉ DATE_COLS ->
  column (converted df) c = column df c.
Proof.
  intros Hv Hd Hdate. unfold DATE_COLS in Hdate.
  rewrite !not_elem_of_cons in Hdate. destruct Hdate as (H1 & H2 & H3 & _).
  unfold converted, DATE_COLS. simpl foldl.
  rewrite !parse_date_col_column_ne by congruence.
  rewrite (setitem_column_ne _ dias c
             (fun v => Some (CNum (fillna0 (to_numeric v))))) by congruence.
  apply (setitem_column_ne df valor c
           (fun v => Some (CNum (to_numeric v)))). congruence.
Qed.

(** [clean_dataframe], when the two numeric columns exist. *)
Lemma clean_dataframe_unfold (df : DataFrame) :
  valor ∈ df_columns df -> dias ∈ df_columns df ->
  clean_dataframe df
  = let dfm := converted df in
    try! dfd := dropna (strip_columns dfm (select_dtypes_object dfm))
                  [valor; fecha] in
    Ok (loc dfd (gt0 <$> column dfd valor)).
Proof.
  intros Hv Hd. unfold clean_dataframe.
  rewrite (getitem_present df valor Hv). cbn [bind_result].
  rewrite getitem_present
    by (cbn [setitem df_columns]; apply elem_of_union; right; exact Hd).
  cbn [bind_result]. fold (converted df). cbv zeta.
  destruct (dropna _ _) as [dfd | e] eqn:Hdrop; [| reflexivity].
  cbn [bind_result].
  apply dropna_Ok in Hdrop. destruct Hdrop as (Hcols & Hsub & _).
  rewrite getitem_present; [reflexivity |].
  rewrite Hcols. apply Hsub. left.
Qed.

Lemma clean_dataframe_columns (df df' : DataFrame) :
  clean_dataframe df = Ok df' ->
  valor ∈ df_columns df /\ dias ∈ df_columns df.
Proof.
  unfold clean_dataframe, getitem.
  destruct (decide (valor ∈ df_columns df)); [| discriminate].
  cbn [bind_result].
  destruct (decide (dias ∈ _)) as [Hd | Hd]; [| discriminate].
  intros _. split; [done |]. cbn [setitem df_columns] in Hd.
  apply elem_of_union in Hd. destruct Hd as [Hd | Hd]; [| exact Hd].
  apply elem_of_singleton in Hd. discriminate.
Qed.

Lemma column_elem (df : DataFrame) (c : string) (r : gmap string cell) :
  r ∈ df_rows df -> r !! c ∈ column df c.
Proof.
  intros Hr. unfold column.
  by apply (list_elem_of_fmap_2 (fun r : gmap string cell => r !! c)).
Qed.

(** What [clean_dataframe] returns: the rows of the converted and stripped
    frame that pass [dropna] and the test [> 0]. *)
Lemma clean_dataframe_Ok (df df' : DataFrame) :
  clean_dataframe df = Ok df' ->
  fecha ∈ df_columns df /\
  forall r, r ∈ df_rows df' ->
    gt0 (r !! valor) = true /\ isna (r !! valor) = false /\
    isna (r !! fecha) = false /\
    exists r0, r0 ∈ df_rows (converted df) /\
               r = strip_row (select_dtypes_object (converted df)) r0.
Proof.
  intros Hclean.
  destruct (clean_dataframe_columns _ _ Hclean) as [Hv Hd].
  rewrite (clean_dataframe_unfold df Hv Hd) in Hclean. cbv zeta in Hclean.
  destruct (dropna _ _) as [dfd | e] eqn:Hdrop; [| discriminate].
  cbn [bind_result] in Hclean. inversion Hclean; subst df'; clear Hclean.
  apply dropna_Ok in Hdrop. destruct Hdrop as (Hcols & Hsub & Hrows).
  split.
  - assert (fecha ∈ df_columns (converted df)) as Hf.
    { apply (Hsub fecha). right. left. }
    apply converted_columns in Hf.
    destruct Hf as [Hf | [Hf | Hf]]; [discriminate | discriminate | done].
  - intros r Hr. apply loc_column_elem in Hr. destruct Hr as [Hr Hgt].
    apply Hrows in Hr. destruct Hr as [Hr Hna].
    split; [done |]. split; [apply Hna; left |].
    split; [apply Hna; right; left |].
    simpl in Hr. apply list_elem_of_fmap in Hr.
    destruct Hr as (r0 & -> & Hr0). eauto.
Qed.

(** C2: every row of the frame that [clean_dataframe] returns has a contract
    value that is not null and is strictly above 0, and a start date that is
    not null. *)
Theorem clean_dataframe_rows (df df' : DataFrame) :
  clean_dataframe df = Ok df' -> Forall cleaned_row (df_rows df').
Proof.
  intros Hclean. apply clean_dataframe_Ok in Hclean.
  destruct Hclean as [Hfecha Hrows].
  apply Forall_forall. intros r Hr.
  destruct (Hrows r Hr) as (Hgt & Hnav & Hnaf & r0 & Hr0 & ->).
  split.
  - destruct (strip_row _ r0 !! valor) as [[s | x | t] |]; try discriminate.
    exists x. auto.
  - rewrite strip_row_lookup in Hnaf |- *.
    pose proof (column_elem _ fecha _ Hr0) as Hcol.
    rewrite (converted_fecha df Hfecha) in Hcol.
    apply list_elem_of_fmap in Hcol. destruct Hcol as (d & Hd & _).
    rewrite Hd in Hnaf |- *.
    destruct d as [t |]; [| discriminate].
    destruct (decide (fecha ∈ _)); [discriminate |].
    exists t. reflexivity.
Qed.

(** [clean_dataframe] returns a frame when the frame it is given has the
    value, the added-days and the start-date columns; without one of them it
    raises [KeyError]. *)
Lemma clean_dataframe_returns (df : DataFrame) :
  valor ∈ df_columns df -> dias ∈ df_columns df -> fecha ∈ df_columns df ->
  exists df', clean_dataframe df = Ok df'.
Proof.
  intros Hv Hd Hf. rewrite (clean_dataframe_unfold df Hv Hd). cbv zeta.
  destruct (dropna_present [valor; fecha]
              (strip_columns (converted df)
                 (select_dtypes_object (converted df)))) as [dfd ->].
  - intros c Hc. cbn [strip_columns df_columns]. apply converted_columns.
    rewrite !elem_of_cons in Hc. destruct Hc as [-> | [-> | Hnil]]; auto.
    by apply not_elem_of_nil in Hnil.
  - cbn [bind_result]. eauto.
Qed.

(** *** Identifiers through [clean_dataframe] *)

Lemma loc_rows_sublist {A} (l : list A) (m : list bool) :
  loc_rows l m `sublist_of` l.
Proof.
  revert m. induction l as [| x l IH]; intros [| b m].
  - reflexivity.
  - reflexivity.
  - rewrite loc_rows_nil_r. apply sublist_nil_l.
  - rewrite loc_rows_cons. destruct b;
      [apply sublist_skip | apply sublist_cons]; apply IH.
Qed.

Lemma dropna_sublist (subset : list string) (df df' : DataFrame) :
  dropna df subset = Ok df' -> df_rows df' `sublist_of` df_rows df.
Proof.
  revert df. induction subset as [| col rest IH]; intros df; simpl.
  - intros H. inversion H. reflexivity.
  - destruct (getitem df col) as [s | e]; cbn [bind_result]; [| discriminate].
    intros H. apply IH in H. etrans; [exact H |]. simpl.
    apply loc_rows_sublist.
Qed.

(** The rows [clean_dataframe] returns are rows of the converted and stripped
    frame, in their order. *)
Lemma clean_dataframe_sublist (df df' : DataFrame) :
  clean_dataframe df = Ok df' ->
  df_rows df' `sublist_of`
    df_rows (strip_columns (converted df) (select_dtypes_object (converted df))).
Proof.
  intros Hclean.
  destruct (clean_dataframe_columns _ _ Hclean) as [Hv Hd].
  rewrite (clean_dataframe_unfold df Hv Hd) in Hclean. cbv zeta in Hclean.
  destruct (dropna _ _) as [dfd | e] eqn:Hdrop; [| discriminate].
  cbn [bind_result] in Hclean. inversion Hclean; subst df'; clear Hclean.
  apply dropna_sublist in Hdrop. etrans; [| exact Hdrop].
  simpl. apply loc_rows_sublist.
Qed.

Lemma strip_columns_column (df : DataFrame) (cols : gset string) (c : string) :
  column (strip_columns df cols) c
  = (fun v => v ≫= (fun x => if decide (c ∈ cols) then str_strip_cell x
                             else Some x)) <$> column df c.
Proof.
  unfold column, strip_columns. simpl. rewrite <- !list_fmap_compose.
  apply list_fmap_ext. intros i r _. unfold compose. apply strip_row_lookup.
Qed.

Lemma not_object_col (df : DataFrame) (c : string) :
  is_object_col df c = false ->
  forall v, v ∈ column df c -> v ≫= str_strip_cell = None.
Proof.
  intros Hobj v Hv. unfold column in Hv. apply list_elem_of_fmap in Hv.
  destruct Hv as (r & -> & Hr).
  destruct (r !! c) as [[s | x | t] |] eqn:Hrc; try reflexivity.
  assert (is_object_col df c = true) as Habs; [| congruence].
  apply existsb_exists. exists r. split; [by apply list_elem_of_In |].
  by rewrite Hrc.
Qed.

Lemma absent_col (df : DataFrame) (c : string) :
  wf_frame df -> c ∉ df_columns df ->
  forall v, v ∈ column df c -> v ≫= str_strip_cell = None.
Proof.
  intros Hwf Hc v Hv. unfold column in Hv. apply list_elem_of_fmap in Hv.
  destruct Hv as (r & -> & Hr).
  destruct (r !! c) as [x |] eqn:Hrc; [| reflexivity].
  exfalso. apply Hc. apply (Hwf r c Hr). by rewrite Hrc.
Qed.

Lemma NoDup_all_None {A B} (f : A -> option B) (l : list A) :
  (forall v, v ∈ l -> f v = None) -> NoDup (f <$> l) -> (length l <= 1)%nat.
Proof.
  intros Hnone Hnd. destruct l as [| a [| b l]]; simpl; try lia.
  exfalso. rewrite !fmap_cons in Hnd. apply NoDup_cons in Hnd.
  destruct Hnd as [Hnotin _]. apply Hnotin.
  rewrite (Hnone a), (Hnone b) by set_solver. left.
Qed.

Lemma NoDup_short {A} (l : list A) : (length l <= 1)%nat -> NoDup l.
Proof.
  destruct l as [| a [| b l]]; simpl; intros H; try lia.
  - constructor.
  - apply NoDup_singleton.
Qed.

Lemma bind_Some_fmap {A} (l : list (option A)) :
  (fun v : option A => v ≫= Some) <$> l = l.
Proof.
  induction l as [| [x |] l IH]; [reflexivity | |];
    rewrite fmap_cons, IH; reflexivity.
Qed.

(** [clean_dataframe] removes no duplicate: it keeps identifiers distinct
    when they are distinct once stripped. *)
Lemma clean_dataframe_ids (df df' : DataFrame) :
  wf_frame df ->
  clean_dataframe df = Ok df' ->
  NoDup (stripped_ids df) -> NoDup (column df' id_col).
Proof.
  intros Hwf Hclean Hnd.
  apply clean_dataframe_sublist in Hclean.
  set (dfm := converted df) in *.
  assert (column dfm id_col = column df id_col) as Hids.
  { apply converted_other; [discriminate | discriminate |].
    unfold DATE_COLS. rewrite !not_elem_of_cons.
    repeat split; try discriminate. apply not_elem_of_nil. }
  assert (column df' id_col `sublist_of`
            column (strip_columns dfm (select_dtypes_object dfm)) id_col) as Hsub.
  { unfold column. by apply fmap_sublist. }
  rewrite strip_columns_column, Hids in Hsub.
  destruct (decide (id_col ∈ select_dtypes_object dfm)) as [Hobj | Hobj].
  - eapply sublist_NoDup; [exact Hnd | exact Hsub].
  - rewrite bind_Some_fmap in Hsub.
    apply NoDup_short. etrans; [apply sublist_length, Hsub |].
    apply (NoDup_all_None (fun v => v ≫= str_strip_cell)); [| exact Hnd].
    destruct (decide (id_col ∈ df_columns dfm)) as [Hcol | Hcol].
    + rewrite <- Hids. apply not_object_col.
      destruct (is_object_col dfm id_col) eqn:Hb; [| reflexivity].
      exfalso. apply Hobj. apply elem_of_filter. split; [exact Hb | exact Hcol].
    + apply absent_col; [exact Hwf |].
      intros Hin. apply Hcol. apply converted_columns. auto.
Qed.

End CleanFacts.

Lemma clean_dataframe_rows_witness :
  exists df',
    SecopClient.clean_dataframe (pandas := Samples.digits_pandas)
      (pystr := Samples.ascii_pystr)
      (DataFrame_of_records Samples.three_records) = Ok df' /\
    length (df_rows df') = 1%nat /\
    Forall SecopClient.cleaned_row (df_rows df').
Proof.
  eexists. split; [vm_compute; reflexivity |].
  split; [reflexivity |].
  apply (clean_dataframe_rows (pandas := Samples.digits_pandas)
           (pystr := Samples.ascii_pystr)
           (DataFrame_of_records Samples.three_records)).
  vm_compute. reflexivity.
Defined.

(** ** The fetch loop of [pull_data] *)

Section LoopFacts.
Import Settings SecopClient.
Context {requests : Requests}.

(** The two ways an iteration ends: it breaks in the state it started from, or
    it appends a page that is not empty, and continues exactly when the page
    is full. *)
Lemma loop_body_cases (max_rows : option Z) (st : loop_state) :
  loop_body max_rows st = Break st \/
  exists batch,
    batch <> [] /\
    fetch_page (offset st) (page_limit max_rows st) = Json batch /\
    (forall m, max_rows = Some m -> 0 < page_limit max_rows st) /\
    loop_body max_rows st
    = if Z.of_nat (length batch) <? page_limit max_rows st
      then Break (advance st batch) else Continue (advance st batch).
Proof.
  unfold loop_body. cbv zeta.
  destruct (if max_rows is Some _ then page_limit max_rows st <=? 0 else false)
    eqn:Hstop; [by left |].
  destruct (fetch_page _ _) as [[| r batch] |] eqn:Hpage; [by left | | by left].
  right. exists (r :: batch).
  split; [discriminate |]. split; [reflexivity |]. split; [| reflexivity].
  intros m ->. apply Z.leb_gt in Hstop. exact Hstop.
Qed.

(** A property kept by every iteration holds when the loop stops. *)
Lemma fetch_loop_invariant (P : loop_state -> Prop) (max_rows : option Z) :
  (forall st st', P st -> loop_body max_rows st = Continue st' -> P st') ->
  (forall st st', P st -> loop_body max_rows st = Break st' -> P st') ->
  forall fuel st st',
    P st -> fetch_loop fuel max_rows st = Some st' -> P st'.
Proof.
  intros Hcont Hbreak fuel.
  induction fuel as [| fuel IH]; intros st st' HP; simpl; [discriminate |].
  destruct (loop_body max_rows st) as [st1 | st1] eqn:Hbody.
  - apply IH. eapply Hcont; eauto.
  - intros Heq. inversion Heq; subst. eapply Hbreak; eauto.
Qed.

Lemma wf_DataFrame_of_records (batch : list (gmap string cell)) :
  wf_frame (DataFrame_of_records batch).
Proof.
  intros r c Hr Hc. simpl in *. apply elem_of_union_list.
  exists (dom r). split.
  - by apply (list_elem_of_fmap_2 dom).
  - by apply elem_of_dom.
Qed.

Lemma wf_pd_concat (chunks : list DataFrame) :
  Forall wf_frame chunks -> wf_frame (pd_concat chunks).
Proof.
  intros Hall r c Hr Hc. unfold pd_concat in *. simpl in *.
  induction Hall as [| chunk chunks Hwf Hall IH]; simpl in *.
  - by apply not_elem_of_nil in Hr.
  - apply elem_of_app in Hr. apply elem_of_union. destruct Hr as [Hr | Hr].
    + left. eapply Hwf; eauto.
    + right. auto.
Qed.

Lemma pd_concat_snoc_rows (chunks : list DataFrame) (chunk : DataFrame) :
  df_rows (pd_concat (chunks ++ [chunk]))
  = (df_rows (pd_concat chunks) ++ df_rows chunk)%list.
Proof.
  unfold pd_concat. simpl. rewrite fmap_app, concat_app. simpl.
  by rewrite app_nil_r.
Qed.

Lemma counted_init : counted loop_init.
Proof. repeat split. constructor. Qed.

Lemma counted_advance (st : loop_state) (batch : list (gmap string cell)) :
  counted st -> counted (advance st batch).
Proof.
  intros (Htot & Hoff & Hwf). unfold counted, advance.
  cbn [chunks total_fetched offset].
  rewrite pd_concat_snoc_rows, length_app. cbn [DataFrame_of_records df_rows].
  split; [lia |]. split; [lia |].
  apply Forall_app. split; [exact Hwf |].
  constructor; [apply wf_DataFrame_of_records | constructor].
Qed.

Lemma counted_step (max_rows : option Z) (st : loop_state) (c : control) :
  counted st -> loop_body max_rows st = c ->
  counted (match c with Continue st' => st' | Break st' => st' end).
Proof.
  intros Hst Hbody.
  destruct (loop_body_cases max_rows st) as [Hb | (batch & _ & _ & _ & Hb)];
    rewrite Hb in Hbody; subst c.
  - exact Hst.
  - destruct (_ <? _); by apply counted_advance.
Qed.

Lemma fetch_loop_counted (fuel : nat) (max_rows : option Z) (st : loop_state) :
  fetch_loop fuel max_rows loop_init = Some st -> counted st.
Proof.
  apply (fetch_loop_invariant counted max_rows); [| | apply counted_init].
  - intros s s' Hs Hb. apply (counted_step max_rows s (Continue s') Hs Hb).
  - intros s s' Hs Hb. apply (counted_step max_rows s (Break s') Hs Hb).
Qed.

End LoopFacts.

(** ** [pull_data] *)

Section PullFacts.
Import Settings SecopClient.
Context {pandas : Pandas} {requests : Requests} {pystr : PyStr}.

Lemma converted_length (df : DataFrame) :
  length (df_rows (converted df)) = length (df_rows df).
Proof.
  pose proof (f_equal length (converted_valor df)) as H.
  unfold column in H. by rewrite !length_fmap in H.
Qed.

(** [clean_dataframe] only drops rows. *)
Lemma clean_dataframe_length (df df' : DataFrame) :
  clean_dataframe df = Ok df' ->
  (length (df_rows df') <= length (df_rows df))%nat.
Proof.
  intros Hclean. apply clean_dataframe_sublist, sublist_length in Hclean.
  simpl in Hclean. rewrite length_fmap, converted_length in Hclean. exact Hclean.
Qed.

(** C3, amended: the frame that [pull_data] saves has pairwise distinct
    [id_contrato] values whenever the fetched pages, taken together, have
    pairwise distinct [id_contrato] values once stripped of surrounding white
    space; nothing on the way removes a duplicate. *)
Theorem pull_data_keeps_ids_distinct (fuel : nat) (max_rows : option Z)
    (output_filename saved_as : string) (df : DataFrame) :
  pull_data fuel max_rows output_filename = Some (Saved saved_as df) ->
  NoDup (stripped_ids (fetched fuel max_rows)) ->
  NoDup (column df "id_contrato").
Proof.
  unfold pull_data, fetched.
  destruct (fetch_loop fuel max_rows loop_init) as [st |] eqn:Hloop;
    [| discriminate].
  apply fetch_loop_counted in Hloop. destruct Hloop as (_ & _ & Hwf).
  destruct (chunks st) as [| chunk rest] eqn:Hchunks; [discriminate |].
  destruct (clean_dataframe _) as [df' | e] eqn:Hclean; [| discriminate].
  intros Heq Hnd. inversion Heq; subst.
  eapply clean_dataframe_ids; [| exact Hclean | exact Hnd].
  by apply wf_pd_concat.
Qed.

Lemma capped_step (m : Z) (st : loop_state) (c : control) :
  pages_bounded ->
  0 <= total_fetched st <= m ->
  loop_body (Some m) st = c ->
  0 <= total_fetched (match c with Continue st' => st' | Break st' => st' end)
  <= m.
Proof.
  intros Hpages Hst Hbody.
  destruct (loop_body_cases (Some m) st) as [Hb | (batch & _ & Hpage & Hlim & Hb)];
    rewrite Hb in Hbody; subst c; [exact Hst |].
  specialize (Hlim m eq_refl). apply Hpages in Hpage; [| exact Hlim].
  unfold page_limit in *.
  assert (0 <= total_fetched (advance st batch) <= m) as Hadv
    by (unfold advance; simpl; lia).
  by destruct (_ <? _).
Qed.

Lemma at_loop_head_capped (m : Z) (st : loop_state) :
  pages_bounded -> 0 < m ->
  at_loop_head (Some m) st -> 0 <= total_fetched st <= m.
Proof.
  intros Hpages Hm Hhead. induction Hhead as [| st st' _ IH Hbody].
  - simpl. lia.
  - apply (capped_step m st (Continue st') Hpages IH Hbody).
Qed.

(** With a row limit the loop stops: every iteration that continues has
    fetched at least one row, and none starts once the limit is reached. *)
Lemma fetch_loop_stops (m : Z) (fuel : nat) (st : loop_state) :
  (Z.to_nat (m - total_fetched st) < fuel)%nat ->
  exists st', fetch_loop fuel (Some m) st = Some st'.
Proof.
  revert st. induction fuel as [| fuel IH]; intros st Hfuel; [lia |].
  simpl.
  destruct (loop_body_cases (Some m) st) as [Hb | (batch & Hne & _ & Hlim & Hb)];
    rewrite Hb; [eauto |].
  destruct (_ <? _); [eauto |].
  apply IH. specialize (Hlim m eq_refl). unfold page_limit in Hlim.
  destruct batch as [| r batch]; [done |].
  unfold advance. simpl total_fetched. simpl length. lia.
Qed.

(** C10: with a positive [max_rows], and pages no longer than the limit they
    are requested with, [total_fetched] is at most [max_rows] at the head of
    every iteration; the limit of a request is at most what is left,
    [max_rows - total_fetched], and the loop breaks when nothing is left; the
    loop stops, and the frame saved has at most [max_rows] rows. *)
Theorem pull_data_row_cap (max_rows : Z) :
  0 < max_rows ->
  pages_bounded ->
  (forall st, at_loop_head (Some max_rows) st ->
     0 <= total_fetched st <= max_rows /\
     page_limit (Some max_rows) st <= max_rows - total_fetched st /\
     (max_rows - total_fetched st = 0 -> loop_body (Some max_rows) st = Break st)) /\
  (exists st,
     fetch_loop (Z.to_nat max_rows + 1) (Some max_rows) loop_init = Some st /\
     0 <= total_fetched st <= max_rows) /\
  (forall fuel output_filename saved_as df,
     pull_data fuel (Some max_rows) output_filename = Some (Saved saved_as df) ->
     Z.of_nat (length (df_rows df)) <= max_rows).
Proof.
  intros Hm Hpages.
  assert (forall fuel st,
            fetch_loop fuel (Some max_rows) loop_init = Some st ->
            0 <= total_fetched st <= max_rows) as Hstop.
  { intros fuel st.
    apply (fetch_loop_invariant
             (fun s => 0 <= total_fetched s <= max_rows) (Some max_rows)).
    - intros s s' Hs Hb. apply (capped_step max_rows s (Continue s') Hpages Hs Hb).
    - intros s s' Hs Hb. apply (capped_step max_rows s (Break s') Hpages Hs Hb).
    - simpl. lia. }
  split; [| split].
  - intros st Hhead. split; [by apply at_loop_head_capped |].
    split; [unfold page_limit; lia |].
    intros Hleft. unfold loop_body, page_limit. cbv zeta. rewrite Hleft.
    reflexivity.
  - destruct (fetch_loop_stops max_rows (Z.to_nat max_rows + 1) loop_init)
      as [st Hst]; [simpl; lia |].
    exists st. split; [exact Hst | by apply (Hstop _ _ Hst)].
  - intros fuel output_filename saved_as df. unfold pull_data.
    destruct (fetch_loop fuel (Some max_rows) loop_init) as [st |] eqn:Hloop;
      [| discriminate].
    pose proof (Hstop _ _ Hloop) as Hcap.
    apply fetch_loop_counted in Hloop. destruct Hloop as (Htot & _ & _).
    destruct (chunks st) as [| chunk rest] eqn:Hchunks; [discriminate |].
    destruct (clean_dataframe _) as [df' | e] eqn:Hclean; [| discriminate].
    intros Heq. inversion Heq; subst.
    apply clean_dataframe_length in Hclean. lia.
Qed.

End PullFacts.

(** C3, as stated, fails: a page that holds a contract twice is saved with
    both copies. *)
Lemma repeated_id_is_saved :
  exists df,
    SecopClient.pull_data (pandas := Samples.digits_pandas)
      (requests := Samples.page_server Samples.repeated_records)
      (pystr := Samples.ascii_pystr) 1 None "secop_raw.parquet"
    = Some (SecopClient.Saved "secop_raw.parquet" df) /\
    ~ NoDup (column df "id_contrato").
Proof.
  eexists. split; [vm_compute; reflexivity |].
  vm_compute. intros Hnd. apply NoDup_cons in Hnd.
  destruct Hnd as [Hnotin _]. apply Hnotin. left.
Qed.

Lemma pull_data_keeps_ids_distinct_witness :
  exists df,
    SecopClient.pull_data (pandas := Samples.digits_pandas)
      (requests := Samples.page_server MoreSamples.padded_records)
      (pystr := Samples.ascii_pystr) 1 None "secop_raw.parquet"
    = Some (SecopClient.Saved "secop_raw.parquet" df) /\
    length (df_rows df) = 2%nat /\
    NoDup (column df "id_contrato").
Proof.
  eexists. split; [vm_compute; reflexivity |].
  split; [reflexivity |].
  apply (pull_data_keeps_ids_distinct
           (pandas := Samples.digits_pandas)
           (requests := Samples.page_server MoreSamples.padded_records)
           (pystr := Samples.ascii_pystr)
           1 None "secop_raw.parquet" "secop_raw.parquet").
  - vm_compute. reflexivity.
  - vm_compute. repeat (apply NoDup_cons_2; [set_solver |]). apply NoDup_nil_2.
Defined.

Lemma page_server_bounded (data : list (gmap string cell)) :
  SecopClient.pages_bounded (requests := Samples.page_server data).
Proof.
  intros off lim batch Hlim Hpage.
  unfold SecopClient.fetch_page in Hpage. simpl in Hpage.
  destruct ((lim <? 0) || (off <? 0)); [discriminate |].
  inversion Hpage. rewrite length_take. lia.
Qed.

Lemma pull_data_row_cap_witness :
  exists st,
    SecopClient.fetch_loop (requests := Samples.page_server Samples.three_records)
      (Z.to_nat 2 + 1) (Some 2) SecopClient.loop_init = Some st /\
    0 <= SecopClient.total_fetched st <= 2.
Proof.
  apply (pull_data_row_cap (pandas := Samples.digits_pandas)
           (requests := Samples.page_server Samples.three_records)
           (pystr := Samples.ascii_pystr) 2);
    [lia | apply page_server_bounded].
Defined.

Example pull_data_two_of_three :
  SecopClient.fetch_loop (requests := Samples.page_server Samples.three_records)
    3 (Some 2) SecopClient.loop_init
  = Some (SecopClient.advance SecopClient.loop_init
            (take 2 Samples.three_records)).
Proof. vm_compute. reflexivity. Qed.

(** * Further properties *)

(** ** [clean_dataframe], row by row *)

Section CleanRowFacts.
Import Settings SecopClient CleanRow.
Context {pandas : Pandas} {pystr : PyStr}.

Abbreviation valor := "valor_del_contrato" (only parsing).
Abbreviation dias := "dias_adicionados" (only parsing).
Abbreviation fecha := "fecha_de_inicio_del_contrato" (only parsing).

Lemma filter_fmap {A B} (f : A -> B) (p : B -> bool) (l : list A) :
  List.filter p (f <$> l) = f <$> List.filter (fun x => p (f x)) l.
Proof.
  induction l as [| x l IH]; [reflexivity |].
  rewrite fmap_cons. simpl. destruct (p (f x)); rewrite IH; reflexivity.
Qed.

Lemma loc_column_rows (df : DataFrame) (c : string) (p : option cell -> bool) :
  df_rows (loc df (p <$> column df c))
  = List.filter (fun r : gmap string cell => p (r !! c)) (df_rows df).
Proof.
  unfold loc, column. simpl. rewrite <- list_fmap_compose. apply loc_rows_fmap.
Qed.

(** [dropna] as a filter. *)
Lemma dropna_rows (subset : list string) (df df' : DataFrame) :
  dropna df subset = Ok df' ->
  df_rows df'
  = List.filter (fun r : gmap string cell =>
                   forallb (fun c => negb (isna (r !! c))) subset) (df_rows df).
Proof.
  revert df. induction subset as [| col rest IH]; intros df; simpl.
  - intros H. inversion H. clear. induction (df_rows df') as [| r l IHl];
      [reflexivity |]. simpl. by rewrite <- IHl.
  - destruct (getitem df col) as [s | e] eqn:Hget; cbn [bind_result];
      [| discriminate].
    apply getitem_Ok in Hget. destruct Hget as [_ ->].
    intros H. apply IH in H. rewrite H.
    rewrite (loc_column_rows df col (negb ∘ isna)). apply filter_twice.
Qed.

Lemma dropna_KeyError (subset : list string) (df : DataFrame) (c : string) :
  dropna df subset = KeyError c -> c ∈ subset /\ c ∉ df_columns df.
Proof.
  revert df. induction subset as [| col rest IH]; intros df; simpl;
    [discriminate |].
  unfold getitem. destruct (decide (col ∈ df_columns df)) as [Hin | Hout];
    cbn [bind_result].
  - intros H. apply IH in H. simpl in H. destruct H as [H1 H2].
    split; [by right | exact H2].
  - intros H. inversion H; subst. split; [by left | exact Hout].
Qed.

(** A column without a string is not among the columns that are stripped. *)
Lemma not_object_not_selected (df : DataFrame) (c : string) :
  (forall r s, r ∈ df_rows df -> r !! c <> Some (CStr s)) ->
  c ∉ select_dtypes_object df.
Proof.
  intros Hnostr Hin. apply elem_of_filter in Hin. destruct Hin as [Hobj _].
  apply existsb_exists in Hobj. destruct Hobj as (r & Hr & Hcell).
  apply list_elem_of_In in Hr.
  destruct (r !! c) as [[s | x | t] |] eqn:Hrc; try discriminate.
  by apply (Hnostr r s Hr).
Qed.

Lemma fillna0_not_nan (x : float) : is_nan (fillna0 x) = false.
Proof.
  unfold fillna0. destruct (is_nan x) eqn:Hx; [reflexivity | exact Hx].
Qed.

(** The added-days column of the converted frame. *)
Lemma converted_dias (df : DataFrame) :
  column (converted df) dias
  = (fun v => Some (CNum (fillna0 (to_numeric v)))) <$> column df dias.
Proof.
  unfold converted, DATE_COLS. simpl foldl.
  rewrite !parse_date_col_column_ne by discriminate.
  rewrite (setitem_column_eq _ dias
             (fun v => Some (CNum (fillna0 (to_numeric v))))).
  f_equal.
  apply (setitem_column_ne df valor dias
           (fun v => Some (CNum (to_numeric v)))). discriminate.
Qed.

Lemma converted_valor_not_stripped (df : DataFrame) :
  valor ∉ select_dtypes_object (converted df).
Proof.
  apply not_object_not_selected. intros r s Hr Hcell.
  pose proof (column_elem _ valor _ Hr) as Hcol.
  rewrite converted_valor, Hcell in Hcol.
  apply list_elem_of_fmap in Hcol. destruct Hcol as (v & Hv & _). discriminate.
Qed.

Lemma converted_dias_not_stripped (df : DataFrame) :
  dias ∉ select_dtypes_object (converted df).
Proof.
  apply not_object_not_selected. intros r s Hr Hcell.
  pose proof (column_elem _ dias _ Hr) as Hcol.
  rewrite converted_dias, Hcell in Hcol.
  apply list_elem_of_fmap in Hcol. destruct Hcol as (v & Hv & _). discriminate.
Qed.

Lemma converted_fecha_not_stripped (df : DataFrame) :
  fecha ∈ df_columns df -> fecha ∉ select_dtypes_object (converted df).
Proof.
  intros Hin. apply not_object_not_selected. intros r s Hr Hcell.
  pose proof (column_elem _ fecha _ Hr) as Hcol.
  rewrite (converted_fecha df Hin), Hcell in Hcol.
  apply list_elem_of_fmap in Hcol. destruct Hcol as ([t |] & Hd & _);
    discriminate.
Qed.

(** A date column after its round of the loop: converted, or left alone. *)
Lemma parse_date_col_column_self (df : DataFrame) (col : string) :
  column (parse_date_col df col) col
  = time_cell <$> to_datetime (column df col)
  \/ column (parse_date_col df col) col = column df col.
Proof.
  unfold parse_date_col. destruct (decide (col ∈ df_columns df)).
  - left. apply setitem_column_eq_any, to_datetime_column_length.
  - by right.
Qed.

(** A string in a row of the converted frame is a string of a row of the
    frame, in the same column. *)
Lemma converted_string (df : DataFrame) (r : gmap string cell) (c s : string) :
  r ∈ df_rows (converted df) -> r !! c = Some (CStr s) ->
  exists r0, r0 ∈ df_rows df /\ r0 !! c = Some (CStr s).
Proof.
  intros Hr Hcell. pose proof (column_elem _ c _ Hr) as Hcol.
  rewrite Hcell in Hcol.
  assert (Some (CStr s) ∈ column df c) as Hin.
  { destruct (decide (c = valor)) as [-> | Hv].
    { rewrite converted_valor in Hcol. apply list_elem_of_fmap in Hcol.
      destruct Hcol as (v & Hv & _). discriminate. }
    destruct (decide (c = dias)) as [-> | Hd].
    { rewrite converted_dias in Hcol. apply list_elem_of_fmap in Hcol.
      destruct Hcol as (v & Hv' & _). discriminate. }
    destruct (decide (c ∈ DATE_COLS)) as [Hdate | Hdate];
      [| by rewrite converted_other in Hcol].
    assert (column (converted df) c = column df c \/
            exists col, column (converted df) c = time_cell <$> col) as Hcase.
    { unfold DATE_COLS in Hdate. rewrite !elem_of_cons in Hdate.
      unfold converted, DATE_COLS. simpl foldl.
      destruct Hdate as [-> | [-> | [-> | Hnil]]];
        [| | | by apply not_elem_of_nil in Hnil].
      - rewrite !parse_date_col_column_ne by discriminate.
        destruct (parse_date_col_column_self
                    (setitem
                       (setitem df valor
                          ((fun v => Some (CNum (to_numeric v)))
                             <$> column df valor))
                       dias
                       ((fun v => Some (CNum (fillna0 (to_numeric v))))
                          <$> column
                                (setitem df valor
                                   ((fun v => Some (CNum (to_numeric v)))
                                      <$> column df valor)) dias))
                    "fecha_de_firma") as [-> | ->]; [right; eauto | left].
        rewrite (setitem_column_ne _ dias "fecha_de_firma"
                   (fun v => Some (CNum (fillna0 (to_numeric v)))))
          by discriminate.
        apply (setitem_column_ne df valor "fecha_de_firma"
                 (fun v => Some (CNum (to_numeric v)))). discriminate.
      - rewrite parse_date_col_column_ne by discriminate.
        match goal with
        | |- context [column (parse_date_col ?d fecha) fecha] =>
            destruct (parse_date_col_column_self d fecha) as [-> | ->]
        end; [right; eauto | left].
        rewrite parse_date_col_column_ne by discriminate.
        rewrite (setitem_column_ne _ dias fecha
                   (fun v => Some (CNum (fillna0 (to_numeric v)))))
          by discriminate.
        apply (setitem_column_ne df valor fecha
                 (fun v => Some (CNum (to_numeric v)))). discriminate.
      - match goal with
        | |- context [column (parse_date_col ?d "fecha_de_fin_del_contrato")
                        "fecha_de_fin_del_contrato"] =>
            destruct (parse_date_col_column_self d "fecha_de_fin_del_contrato")
              as [-> | ->]
        end; [right; eauto | left].
        rewrite !parse_date_col_column_ne by discriminate.
        rewrite (setitem_column_ne _ dias "fecha_de_fin_del_contrato"
                   (fun v => Some (CNum (fillna0 (to_numeric v)))))
          by discriminate.
        apply (setitem_column_ne df valor "fecha_de_fin_del_contrato"
                 (fun v => Some (CNum (to_numeric v)))). discriminate. }
    destruct Hcase as [Heq | (col & Heq)]; rewrite Heq in Hcol; [exact Hcol |].
    apply list_elem_of_fmap in Hcol. destruct Hcol as ([t |] & Hd' & _);
      discriminate. }
  unfold column in Hin. apply list_elem_of_fmap in Hin.
  destruct Hin as (r0 & Heq & Hr0). eauto.
Qed.

Lemma zip_with_fmap_both {A B C D} (h : B -> C -> D) (f : A -> B) (g : A -> C)
    (l : list A) :
  zip_with h (f <$> l) (g <$> l) = (fun x => h (f x) (g x)) <$> l.
Proof.
  induction l as [| x l IH]; [reflexivity |].
  rewrite !fmap_cons. cbn [zip_with]. by rewrite IH.
Qed.

Lemma zip_with_fmap_args {A B A' B' C} (h : A' -> B' -> C) (f : A -> A')
    (g : B -> B') (l : list A) (k : list B) :
  zip_with h (f <$> l) (g <$> k) = zip_with (fun x y => h (f x) (g y)) l k.
Proof.
  revert k. induction l as [| x l IH]; intros [| y k]; try reflexivity.
  rewrite !fmap_cons. cbn [zip_with]. by rewrite IH.
Qed.

Lemma zip_with_pointwise {A B C} (h h' : A -> B -> C) (l : list A) (k : list B) :
  (forall x y, h x y = h' x y) -> zip_with h l k = zip_with h' l k.
Proof.
  intros Hext. revert k. induction l as [| x l IH]; intros [| y k];
    try reflexivity.
  cbn [zip_with]. by rewrite Hext, IH.
Qed.

Lemma count_true_fmap {A} (p : A -> bool) (l : list A) :
  count_true (p <$> l) = length (List.filter p l).
Proof.
  unfold count_true. rewrite (filter_fmap p (fun b : bool => b)).
  apply length_fmap.
Qed.

(** The tests of [dropna] and of [> 0] on the rows of the converted and
    stripped frame give the mask read on the frame as it was fetched. *)
Lemma keep_mask_converted (df : DataFrame) :
  fecha ∈ df_columns df ->
  (fun r : gmap string cell =>
     forallb (fun c => negb (isna (r !! c))) [valor; fecha]
     && gt0 (r !! valor))
    <$> (strip_row (select_dtypes_object (converted df))
           <$> df_rows (converted df))
  = keep_mask df.
Proof.
  intros Hf. rewrite <- list_fmap_compose.
  transitivity
    ((fun r : gmap string cell =>
        negb (isna (r !! valor)) && (negb (isna (r !! fecha)) && true)
        && gt0 (r !! valor)) <$> df_rows (converted df)).
  { apply list_fmap_ext. intros i r Hr. unfold compose. cbn [forallb].
    rewrite !strip_row_lookup.
    destruct (decide (valor ∈ _)) as [Hc | _];
      [exfalso; by apply converted_valor_not_stripped in Hc |].
    destruct (decide (fecha ∈ _)) as [Hc | _];
      [exfalso; by apply converted_fecha_not_stripped in Hc |].
    by destruct (r !! valor), (r !! fecha). }
  rewrite <- (zip_with_fmap_both
                (fun a b => negb (isna a) && (negb (isna b) && true) && gt0 a)
                (fun r : gmap string cell => r !! valor)
                (fun r : gmap string cell => r !! fecha)).
  fold (column (converted df) valor). fold (column (converted df) fecha).
  rewrite converted_valor, (converted_fecha df Hf).
  unfold keep_mask. rewrite zip_with_fmap_args.
  apply zip_with_pointwise. intros v d. cbn [isna gt0].
  destruct d as [t |]; cbn [time_cell fmap option_fmap option_map isna];
    destruct (is_nan _); destruct (0 <? _)%float; reflexivity.
Qed.

(** X1: [clean_dataframe] keeps exactly the rows at which the value converts
    to a number above zero and the converted start-date column holds a
    timestamp, in their order, each one converted and stripped; no row that
    passes is lost. *)
Theorem clean_dataframe_keeps_passing_rows (df df' : DataFrame) :
  clean_dataframe df = Ok df' ->
  df_rows df'
  = strip_row (select_dtypes_object (converted df))
      <$> loc_rows (df_rows (converted df)) (keep_mask df)
  /\ length (df_rows df') = count_true (keep_mask df).
Proof.
  intros Hclean.
  destruct (clean_dataframe_Ok _ _ Hclean) as [Hf _].
  destruct (clean_dataframe_columns _ _ Hclean) as [Hv Hd].
  rewrite (clean_dataframe_unfold df Hv Hd) in Hclean. cbv zeta in Hclean.
  destruct (dropna _ _) as [dfd | e] eqn:Hdrop; [| discriminate].
  cbn [bind_result] in Hclean. inversion Hclean; subst df'; clear Hclean.
  rewrite loc_column_rows, (dropna_rows _ _ _ Hdrop), filter_twice.
  cbn [strip_columns df_rows].
  rewrite <- (keep_mask_converted df Hf).
  set (test := fun r : gmap string cell =>
                 forallb (fun c => negb (isna (r !! c))) [valor; fecha]
                 && gt0 (r !! valor)).
  set (stripped := strip_row (select_dtypes_object (converted df))).
  split.
  - rewrite <- list_fmap_compose, loc_rows_fmap, filter_fmap. reflexivity.
  - by rewrite count_true_fmap.
Qed.

(** When [clean_dataframe] raises, the [KeyError] names the first of the
    value, added-days and start-date columns that the frame lacks. *)
Lemma clean_dataframe_raises (df : DataFrame) (c : string) :
  clean_dataframe df = KeyError c ->
  (c ∉ df_columns df) /\ (c = valor \/ c = dias \/ c = fecha).
Proof.
  intros Hclean.
  destruct (decide (valor ∈ df_columns df)) as [Hv | Hv].
  2:{ unfold clean_dataframe, getitem in Hclean.
      rewrite (decide_False _ _ Hv) in Hclean. cbn [bind_result] in Hclean.
      inversion Hclean; subst. auto. }
  destruct (decide (dias ∈ df_columns df)) as [Hd | Hd].
  2:{ unfold clean_dataframe in Hclean.
      rewrite (getitem_present df valor Hv) in Hclean.
      cbn [bind_result] in Hclean. unfold getitem at 1 in Hclean.
      rewrite decide_False in Hclean.
      - cbn [bind_result] in Hclean. inversion Hclean; subst. auto.
      - cbn [setitem df_columns]. intros Hin.
        apply elem_of_union in Hin. destruct Hin as [Hin | Hin]; [| done].
        apply elem_of_singleton in Hin. discriminate. }
  rewrite (clean_dataframe_unfold df Hv Hd) in Hclean. cbv zeta in Hclean.
  destruct (dropna _ _) as [dfd | e] eqn:Hdrop; [discriminate |].
  cbn [bind_result] in Hclean. inversion Hclean; subst e.
  apply dropna_KeyError in Hdrop. destruct Hdrop as [Hin Hout].
  cbn [strip_columns df_columns] in Hout. rewrite converted_columns in Hout.
  split; [tauto |].
  rewrite !elem_of_cons in Hin. destruct Hin as [-> | [-> | Hnil]]; auto.
  by apply not_elem_of_nil in Hnil.
Qed.

(** X2: [clean_dataframe] returns a frame exactly when the frame it is given
    has the value, the added-days and the start-date columns; when it raises,
    the [KeyError] names one of these three, absent from the frame. *)
Theorem clean_dataframe_returns_iff (df : DataFrame) :
  ((exists df', clean_dataframe df = Ok df') <->
   valor ∈ df_columns df /\ dias ∈ df_columns df /\ fecha ∈ df_columns df) /\
  (forall c, clean_dataframe df = KeyError c ->
     (c ∉ df_columns df) /\ (c = valor \/ c = dias \/ c = fecha)).
Proof.
  split.
  - split.
    + intros [df' Hclean].
      destruct (clean_dataframe_columns _ _ Hclean) as [Hv Hd].
      destruct (clean_dataframe_Ok _ _ Hclean) as [Hf _]. auto.
    + intros (Hv & Hd & Hf). by apply clean_dataframe_returns.
  - apply clean_dataframe_raises.
Qed.

(** X3: in every row that [clean_dataframe] returns the added days are a
    number and not NaN: a missing or unreadable value has become 0. *)
Theorem clean_dataframe_fills_added_days (df df' : DataFrame) :
  clean_dataframe df = Ok df' ->
  Forall (fun r : gmap string cell =>
            exists r0, r0 ∈ df_rows df /\
              r !! dias = Some (CNum (fillna0 (to_numeric (r0 !! dias)))) /\
              is_nan (fillna0 (to_numeric (r0 !! dias))) = false /\
              (is_nan (to_numeric (r0 !! dias)) = true ->
               r !! dias = Some (CNum 0)))
         (df_rows df').
Proof.
  intros Hclean. apply clean_dataframe_Ok in Hclean.
  destruct Hclean as [_ Hrows]. apply Forall_forall. intros r Hr.
  destruct (Hrows r Hr) as (_ & _ & _ & r' & Hr' & ->).
  pose proof (column_elem _ dias _ Hr') as Hcol.
  rewrite converted_dias in Hcol. apply list_elem_of_fmap in Hcol.
  destruct Hcol as (v & Hv & Hin).
  unfold column in Hin. apply list_elem_of_fmap in Hin.
  destruct Hin as (r0 & -> & Hr0).
  exists r0. split; [exact Hr0 |].
  rewrite strip_row_lookup, Hv. cbn [mbind option_bind].
  destruct (decide (dias ∈ _)) as [Hc | _];
    [exfalso; by apply converted_dias_not_stripped in Hc |].
  split; [reflexivity |]. split; [apply fillna0_not_nan |].
  intros Hnan. unfold fillna0. by rewrite Hnan.
Qed.

(** X4: every string in a row that [clean_dataframe] returns is a string of a
    row it was given, in the same column, stripped of the white space around
    it. *)
Theorem clean_dataframe_strips_strings (df df' : DataFrame) :
  wf_frame df ->
  clean_dataframe df = Ok df' ->
  forall (r : gmap string cell) (c s : string),
    r ∈ df_rows df' -> r !! c = Some (CStr s) ->
    exists (r0 : gmap string cell) (s0 : string),
      r0 ∈ df_rows df /\ r0 !! c = Some (CStr s0) /\ s = strip s0.
Proof.
  intros Hwf Hclean r c s Hr Hcell.
  apply clean_dataframe_Ok in Hclean. destruct Hclean as [_ Hrows].
  destruct (Hrows r Hr) as (_ & _ & _ & r' & Hr' & ->).
  rewrite strip_row_lookup in Hcell.
  destruct (r' !! c) as [v |] eqn:Hv;
    cbn [mbind option_bind] in Hcell; [| discriminate].
  destruct (decide (c ∈ _)) as [Hsel | Hsel].
  - destruct v as [s0 | x | t]; cbn [str_strip_cell] in Hcell;
      try discriminate.
    inversion Hcell; subst s.
    destruct (converted_string df r' c s0 Hr' Hv) as (r0 & Hr0 & Hc0). eauto.
  - inversion Hcell; subst v. exfalso. apply Hsel.
    destruct (converted_string df r' c s Hr' Hv) as (r0 & Hr0 & Hc0).
    apply elem_of_filter. split.
    + apply existsb_exists. exists r'. split.
      * by apply list_elem_of_In.
      * by rewrite Hv.
    + apply converted_columns. right. right.
      apply (Hwf r0 c Hr0). by rewrite Hc0.
Qed.

(** X5: [clean_dataframe] returns a frame with the columns of the frame it
    was given, and with no more rows. *)
Theorem clean_dataframe_keeps_columns (df df' : DataFrame) :
  clean_dataframe df = Ok df' ->
  df_columns df' = df_columns df /\
  (length (df_rows df') <= length (df_rows df))%nat.
Proof.
  intros Hclean. split; [| by apply clean_dataframe_length].
  destruct (clean_dataframe_columns _ _ Hclean) as [Hv Hd].
  rewrite (clean_dataframe_unfold df Hv Hd) in Hclean. cbv zeta in Hclean.
  destruct (dropna _ _) as [dfd | e] eqn:Hdrop; [| discriminate].
  cbn [bind_result] in Hclean. inversion Hclean; subst df'; clear Hclean.
  apply dropna_Ok in Hdrop. destruct Hdrop as (Hcols & _ & _).
  cbn [loc df_columns]. rewrite Hcols. cbn [strip_columns df_columns].
  apply set_eq. intros c. rewrite converted_columns.
  split; [intros [-> | [-> | Hc]]; done | auto].
Qed.

End CleanRowFacts.

Lemma clean_dataframe_keeps_passing_rows_witness :
  exists df',
    SecopClient.clean_dataframe (pandas := Samples.digits_pandas)
      (pystr := Samples.ascii_pystr)
      (DataFrame_of_records Samples.three_records) = Ok df' /\
    length (df_rows df') = 1%nat.
Proof.
  eexists. split; [vm_compute; reflexivity |].
  etrans.
  - apply (clean_dataframe_keeps_passing_rows (pandas := Samples.digits_pandas)
      (pystr := Samples.ascii_pystr)
             (DataFrame_of_records Samples.three_records)).
    vm_compute. reflexivity.
  - vm_compute. reflexivity.
Defined.

Lemma clean_dataframe_fills_added_days_witness :
  exists df',
    SecopClient.clean_dataframe (pandas := Samples.digits_pandas)
      (pystr := Samples.ascii_pystr)
      (DataFrame_of_records Samples.three_records) = Ok df' /\
    Forall (fun r : gmap string cell =>
              exists y, r !! "dias_adicionados" = Some (CNum y)
                        /\ is_nan y = false)
           (df_rows df').
Proof.
  eexists. split; [vm_compute; reflexivity |].
  eapply Forall_impl.
  - apply (clean_dataframe_fills_added_days (pandas := Samples.digits_pandas)
      (pystr := Samples.ascii_pystr)
             (DataFrame_of_records Samples.three_records)).
    vm_compute. reflexivity.
  - intros r (r0 & _ & Hr & Hnan & _). eauto.
Defined.

Lemma clean_dataframe_strips_strings_witness :
  exists df',
    SecopClient.clean_dataframe (pandas := Samples.digits_pandas)
      (pystr := Samples.ascii_pystr)
      (DataFrame_of_records MoreSamples.padded_records) = Ok df' /\
    forall (r : gmap string cell) (c s : string),
      r ∈ df_rows df' -> r !! c = Some (CStr s) ->
      exists (r0 : gmap string cell) (s0 : string),
        r0 ∈ MoreSamples.padded_records /\ r0 !! c = Some (CStr s0)
        /\ s = strip (PyStr := Samples.ascii_pystr) s0.
Proof.
  eexists. split; [vm_compute; reflexivity |].
  apply (clean_dataframe_strips_strings (pandas := Samples.digits_pandas)
      (pystr := Samples.ascii_pystr)
           (DataFrame_of_records MoreSamples.padded_records)).
  - apply wf_DataFrame_of_records.
  - vm_compute. reflexivity.
Defined.

Example padded_identifier_is_stripped :
  (fun df => column df "id_contrato")
    <$> (match SecopClient.clean_dataframe (pandas := Samples.digits_pandas)
      (pystr := Samples.ascii_pystr)
                 (DataFrame_of_records MoreSamples.padded_records) with
         | Ok df => Some df
         | KeyError _ => None
         end)
  = Some [Some (CStr "CO1.PCCNTR.7"); Some (CStr "CO1.PCCNTR.8")].
Proof. vm_compute. reflexivity. Qed.

Lemma clean_dataframe_keeps_columns_witness :
  exists df',
    SecopClient.clean_dataframe (pandas := Samples.digits_pandas)
      (pystr := Samples.ascii_pystr)
      (DataFrame_of_records Samples.three_records) = Ok df' /\
    df_columns df' = df_columns (DataFrame_of_records Samples.three_records).
Proof.
  eexists. split; [vm_compute; reflexivity |].
  apply (clean_dataframe_keeps_columns (pandas := Samples.digits_pandas)
      (pystr := Samples.ascii_pystr)
           (DataFrame_of_records Samples.three_records)).
  vm_compute. reflexivity.
Defined.

Example clean_dataframe_without_added_days :
  SecopClient.clean_dataframe (pandas := Samples.digits_pandas)
      (pystr := Samples.ascii_pystr)
    (DataFrame_of_records MoreSamples.records_without_dias)
  = KeyError "dias_adicionados".
Proof. vm_compute. reflexivity. Qed.

(** ** The fetch loop, further *)

Section LoopMore.
Import Settings SecopClient ApiBehaviour.
Context {pandas : Pandas} {requests : Requests} {pystr : PyStr}.

Lemma loop_body_extends (max_rows : option Z) (st : loop_state) (c : control) :
  loop_body max_rows st = c ->
  let st' := match c with Continue s => s | Break s => s end in
  chunks st `prefix_of` chunks st' /\ total_fetched st <= total_fetched st'.
Proof.
  intros Hbody. cbv zeta.
  destruct (loop_body_cases max_rows st) as [Hb | (batch & _ & _ & _ & Hb)];
    rewrite Hb in Hbody; subst c.
  - split; [reflexivity | lia].
  - assert (chunks st `prefix_of` chunks (advance st batch)
            /\ total_fetched st <= total_fetched (advance st batch)) as Hadv.
    { unfold advance. cbn [chunks total_fetched].
      split; [by apply prefix_app_r | lia]. }
    by destruct (_ <? _).
Qed.

Lemma fetch_loop_extends (fuel : nat) (max_rows : option Z)
    (st st' : loop_state) :
  fetch_loop fuel max_rows st = Some st' ->
  chunks st `prefix_of` chunks st' /\ total_fetched st <= total_fetched st'.
Proof.
  revert st. induction fuel as [| fuel IH]; intros st; simpl; [discriminate |].
  destruct (loop_body max_rows st) as [st1 | st1] eqn:Hbody;
    pose proof (loop_body_extends max_rows st _ Hbody) as [Hpre Htot];
    cbv zeta in Hpre, Htot.
  - intros Hloop. apply IH in Hloop. destruct Hloop as [Hpre' Htot'].
    split; [by etrans | lia].
  - intros Heq. inversion Heq; subst. auto.
Qed.

(** X6: at the head of every iteration, and when the loop has stopped,
    [offset] and [total_fetched] both equal the number of rows in the chunks
    fetched so far: the pages are requested back to back. *)
Theorem loop_counts_rows (max_rows : option Z) :
  (forall st, at_loop_head max_rows st ->
     total_fetched st = Z.of_nat (length (df_rows (pd_concat (chunks st)))) /\
     offset st = total_fetched st) /\
  (forall fuel st, fetch_loop fuel max_rows loop_init = Some st ->
     total_fetched st = Z.of_nat (length (df_rows (pd_concat (chunks st)))) /\
     offset st = total_fetched st).
Proof.
  split.
  - intros st Hhead.
    assert (counted st) as (Htot & Hoff & _); [| auto].
    induction Hhead as [| st st' _ IH Hbody]; [apply counted_init |].
    apply (counted_step max_rows st (Continue st') IH Hbody).
  - intros fuel st Hloop. apply fetch_loop_counted in Hloop.
    destruct Hloop as (Htot & Hoff & _). auto.
Qed.

(** X7: the loop only appends pages, and a request that fails ends it in
    the state it was in: the pages fetched before an API error are kept. *)
Theorem loop_keeps_pages (max_rows : option Z) :
  (forall fuel st st', fetch_loop fuel max_rows st = Some st' ->
     chunks st `prefix_of` chunks st' /\ total_fetched st <= total_fetched st') /\
  (forall fuel st,
     fetch_page (offset st) (page_limit max_rows st) = RequestException ->
     fetch_loop (S fuel) max_rows st = Some st).
Proof.
  split; [intros fuel st st'; apply fetch_loop_extends |].
  intros fuel st Hfail. simpl. unfold loop_body. cbv zeta. rewrite Hfail.
  by destruct (if max_rows is Some _ then _ else _).
Qed.

(** With a row limit the loop has stopped after [max_rows + 1] iterations,
    whatever the API answers. *)
Lemma fetch_loop_stops_any (m : Z) :
  exists st, fetch_loop (Z.to_nat m + 1) (Some m) loop_init = Some st.
Proof. apply fetch_loop_stops. simpl. lia. Qed.

(** X8: with a row limit, [pull_data] returns after at most [max_rows + 1]
    requests, whatever the API answers. *)
Theorem pull_data_with_limit_returns (m : Z) (output_filename : string) :
  exists r, pull_data (Z.to_nat m + 1) (Some m) output_filename = Some r.
Proof.
  unfold pull_data. destruct (fetch_loop_stops_any m) as [st ->]. eauto.
Qed.

Lemma fetch_loop_endless (fuel : nat) (st : loop_state) :
  always_full -> fetch_loop fuel None st = None.
Proof.
  intros Hfull. revert st. induction fuel as [| fuel IH]; intros st;
    [reflexivity |].
  simpl. unfold loop_body. cbv zeta. cbn [page_limit].
  destruct (Hfull (offset st) API_PAGE_SIZE) as (batch & -> & Hlen);
    [reflexivity |].
  destruct batch as [| r batch]; [simpl in Hlen; unfold API_PAGE_SIZE in Hlen; lia |].
  destruct (_ <? _) eqn:Hlt; [apply Z.ltb_lt in Hlt; lia |].
  apply IH.
Qed.

(** X9: without a row limit the loop has no bound of its own: against an API
    whose pages are always full, [pull_data] does not return, however many
    iterations it is given. *)
Theorem pull_data_unbounded (fuel : nat) (output_filename : string) :
  always_full -> pull_data fuel None output_filename = None.
Proof.
  intros Hfull. unfold pull_data. by rewrite fetch_loop_endless.
Qed.

End LoopMore.

(** ** [pull_data], further *)

Section PullMore.
Import Settings SecopClient ApiBehaviour SecopMain.
Context {pandas : Pandas} {requests : Requests} {pystr : PyStr}.

Lemma fetch_loop_serves (data : list (gmap string cell)) (max_rows : option Z) :
  serves data ->
  forall fuel st,
    0 <= total_fetched st <= Z.of_nat (length data) ->
    offset st = total_fetched st ->
    (forall m, max_rows = Some m -> total_fetched st <= Z.max 0 m) ->
    df_rows (pd_concat (chunks st)) = take (Z.to_nat (total_fetched st)) data ->
    (length data - Z.to_nat (total_fetched st) < fuel)%nat ->
    exists st',
      fetch_loop fuel max_rows st = Some st' /\
      df_rows (pd_concat (chunks st'))
      = match max_rows with
        | None => data
        | Some m => take (Z.to_nat m) data
        end.
Proof.
  intros Hserves fuel.
  induction fuel as [| fuel IH]; intros st Htot Hoff Hcap Hrows Hfuel; [lia |].
  cbn [fetch_loop]. unfold loop_body. cbv zeta.
  set (limit := page_limit max_rows st).
  destruct (if max_rows is Some _ then limit <=? 0 else false) eqn:Hguard.
  { (* the row limit is reached *)
    exists st. split; [reflexivity |].
    destruct max_rows as [m |]; [| discriminate].
    apply Z.leb_le in Hguard. subst limit. unfold page_limit in Hguard.
    specialize (Hcap m eq_refl). unfold API_PAGE_SIZE in Hguard.
    rewrite Hrows. f_equal. lia. }
  assert (0 < limit) as Hlim.
  { subst limit. destruct max_rows as [m |].
    - by apply Z.leb_gt in Hguard.
    - reflexivity. }
  assert (forall m, max_rows = Some m -> limit <= m - total_fetched st) as Hleft.
  { intros m ->. subst limit. unfold page_limit. lia. }
  rewrite (Hserves (offset st) limit) by lia. rewrite Hoff.
  remember (take (Z.to_nat limit) (drop (Z.to_nat (total_fetched st)) data))
    as batch eqn:Hbatch.
  assert (Z.of_nat (length batch)
          = Z.min limit (Z.of_nat (length data) - total_fetched st)) as Hlen.
  { rewrite Hbatch, length_take, length_drop. lia. }
  assert (df_rows (pd_concat (chunks (advance st batch)))
          = take (Z.to_nat (total_fetched (advance st batch))) data) as Hrows'.
  { unfold advance. cbn [chunks total_fetched].
    rewrite pd_concat_snoc_rows.
    change (df_rows (DataFrame_of_records batch)) with batch.
    rewrite Hrows, Hlen, Hbatch, take_take_drop.
    destruct (decide (limit <= Z.of_nat (length data) - total_fetched st)).
    - f_equal. lia.
    - rewrite !take_ge; [reflexivity | |]; lia. }
  clear Hbatch.
  destruct batch as [| r batch'].
  { (* no record is left *)
    exists st. split; [reflexivity |].
    simpl in Hlen.
    assert (total_fetched st = Z.of_nat (length data)) as Hall by lia.
    rewrite Hrows. rewrite take_ge by lia.
    destruct max_rows as [m |]; [| reflexivity].
    specialize (Hcap m eq_refl). rewrite take_ge by lia. reflexivity. }
  assert (1 <= Z.of_nat (length (r :: batch'))) as Hpos by (simpl; lia).
  set (batch := r :: batch') in *.
  destruct (Z.of_nat (length batch) <? limit) eqn:Hshort.
  { (* a short page: the last one *)
    exists (advance st batch). split; [reflexivity |].
    apply Z.ltb_lt in Hshort. rewrite Hrows'.
    unfold advance. cbn [total_fetched].
    rewrite take_ge by lia.
    destruct max_rows as [m |]; [| reflexivity].
    specialize (Hleft m eq_refl). rewrite take_ge by lia. reflexivity. }
  apply Z.ltb_ge in Hshort.
  apply IH.
  - unfold advance. cbn [total_fetched]. lia.
  - unfold advance. cbn [offset total_fetched]. lia.
  - intros m Hm. specialize (Hleft m Hm).
    unfold advance. cbn [total_fetched]. lia.
  - exact Hrows'.
  - unfold advance. cbn [total_fetched]. lia.
Qed.

(** X10: against an API that pages through its records in a fixed order,
    the loop stops and has fetched exactly the records of the API, in order,
    without a gap or a repeat: all of them without a row limit, the first
    [max_rows] of them with one. *)
Theorem pull_retrieves_in_order (data : list (gmap string cell))
    (max_rows : option Z) :
  serves data ->
  (exists st, fetch_loop (length data + 1) max_rows loop_init = Some st) /\
  df_rows (fetched (length data + 1) max_rows)
  = match max_rows with
    | None => data
    | Some m => take (Z.to_nat m) data
    end.
Proof.
  intros Hserves.
  destruct (fetch_loop_serves data max_rows Hserves (length data + 1) loop_init)
    as (st & Hloop & Hrows).
  - cbn [loop_init total_fetched]. lia.
  - reflexivity.
  - intros m _. cbn [loop_init total_fetched]. lia.
  - reflexivity.
  - cbn [loop_init total_fetched]. lia.
  - unfold fetched. rewrite Hloop. eauto.
Qed.

Lemma pull_data_empty_chunks (fuel : nat) (max_rows : option Z) (st : loop_state) :
  fetch_loop fuel max_rows loop_init = Some st -> chunks st = [] ->
  loop_body max_rows loop_init = Break loop_init.
Proof.
  destruct fuel as [| fuel]; [discriminate |]. simpl.
  destruct (loop_body_cases max_rows loop_init)
    as [Hb | (batch & _ & _ & _ & Hb)]; [done |].
  rewrite Hb. intros Hloop Hnil. exfalso.
  assert (chunks (advance loop_init batch) `prefix_of` chunks st) as Hpre.
  { destruct (_ <? _).
    - inversion Hloop; subst. reflexivity.
    - by apply fetch_loop_extends in Hloop as [Hpre _]. }
  rewrite Hnil in Hpre. apply prefix_nil_inv in Hpre. discriminate.
Qed.

(** X11: [pull_data] returns [None] without a file exactly when the first
    iteration breaks before a row is fetched; this is so when [max_rows] is
    zero or negative, and when the first request fails or finds no record. *)
Theorem pull_data_no_data (fuel : nat) (max_rows : option Z)
    (output_filename : string) :
  (pull_data fuel max_rows output_filename = Some NoData <->
   fuel <> O /\ loop_body max_rows loop_init = Break loop_init) /\
  (forall m, max_rows = Some m -> m <= 0 ->
     loop_body max_rows loop_init = Break loop_init) /\
  (fetch_page 0 (page_limit max_rows loop_init) = RequestException \/
   fetch_page 0 (page_limit max_rows loop_init) = Json [] ->
   loop_body max_rows loop_init = Break loop_init).
Proof.
  split; [split | split].
  - unfold pull_data.
    destruct (fetch_loop fuel max_rows loop_init) as [st |] eqn:Hloop;
      [| discriminate].
    destruct (chunks st) as [| chunk rest] eqn:Hchunks.
    + intros _. split; [by destruct fuel |].
      by apply (pull_data_empty_chunks fuel max_rows st).
    + by destruct (clean_dataframe _).
  - intros [Hfuel Hbreak]. unfold pull_data.
    destruct fuel as [| fuel]; [done |]. simpl. by rewrite Hbreak.
  - intros m -> Hm. unfold loop_body. cbv zeta. cbn [page_limit loop_init total_fetched].
    destruct (_ <=? 0) eqn:Hle; [reflexivity |].
    apply Z.leb_gt in Hle. unfold API_PAGE_SIZE in Hle. lia.
  - intros Hfirst. unfold loop_body. cbv zeta. cbn [offset loop_init].
    destruct (if max_rows is Some _ then _ else _); [reflexivity |].
    by destruct Hfirst as [-> | ->].
Qed.

(** X12: when [pull_data] ends in a [KeyError], the key is the value, the
    added-days or the start-date column, and no fetched record has that
    field. *)
Theorem pull_data_raises (fuel : nat) (max_rows : option Z)
    (output_filename c : string) :
  pull_data fuel max_rows output_filename = Some (Raised c) ->
  (c = "valor_del_contrato" \/ c = "dias_adicionados"
   \/ c = "fecha_de_inicio_del_contrato") /\
  forall r : gmap string cell,
    r ∈ df_rows (fetched fuel max_rows) -> r !! c = None.
Proof.
  unfold pull_data, fetched.
  destruct (fetch_loop fuel max_rows loop_init) as [st |] eqn:Hloop;
    [| discriminate].
  apply fetch_loop_counted in Hloop. destruct Hloop as (_ & _ & Hwf).
  apply wf_pd_concat in Hwf.
  destruct (chunks st) as [| chunk rest] eqn:Hchunks; [discriminate |].
  destruct (clean_dataframe _) as [df' | e] eqn:Hclean; [discriminate |].
  intros Heq. inversion Heq; subst e.
  apply clean_dataframe_raises in Hclean. destruct Hclean as [Hout Hc].
  split; [exact Hc |]. intros r Hr.
  destruct (r !! c) as [v |] eqn:Hv; [| reflexivity].
  exfalso. apply Hout. apply (Hwf r c Hr). by rewrite Hv.
Qed.

Lemma pull_data_saved_name (fuel : nat) (max_rows : option Z)
    (output_filename saved_as : string) (df : DataFrame) :
  pull_data fuel max_rows output_filename = Some (Saved saved_as df) ->
  saved_as = output_filename.
Proof.
  unfold pull_data. destruct (fetch_loop _ _ _) as [st |]; [| discriminate].
  destruct (chunks st); [discriminate |].
  destruct (clean_dataframe _); [| discriminate].
  intros Heq. by inversion Heq.
Qed.

Lemma pull_data_capped (fuel : nat) (m : Z) (output_filename saved_as : string)
    (df : DataFrame) :
  0 <= m -> pages_bounded ->
  pull_data fuel (Some m) output_filename = Some (Saved saved_as df) ->
  Z.of_nat (length (df_rows df)) <= m.
Proof.
  intros Hm Hpages. unfold pull_data.
  destruct (fetch_loop fuel (Some m) loop_init) as [st |] eqn:Hloop;
    [| discriminate].
  assert (0 <= total_fetched st <= m) as Hcap.
  { revert Hloop.
    apply (fetch_loop_invariant (fun s => 0 <= total_fetched s <= m) (Some m)).
    - intros s s' Hs Hb. apply (capped_step m s (Continue s') Hpages Hs Hb).
    - intros s s' Hs Hb. apply (capped_step m s (Break s') Hpages Hs Hb).
    - simpl. lia. }
  apply fetch_loop_counted in Hloop. destruct Hloop as (Htot & _ & _).
  destruct (chunks st) as [| chunk rest] eqn:Hchunks; [discriminate |].
  destruct (clean_dataframe _) as [df' | e] eqn:Hclean; [| discriminate].
  intros Heq. inversion Heq; subst.
  apply clean_dataframe_length in Hclean. lia.
Qed.

(** X13: a run with [--test] ignores [--max-rows], writes only to
    [secop_test.parquet], saves at most 1000 rows when no page is longer than
    asked, and returns after at most 1001 requests; a run without [--test]
    writes only to [secop_raw.parquet]. *)
Theorem main_test_run :
  (forall fuel max_rows, main fuel true max_rows = main fuel true None) /\
  (forall fuel max_rows saved_as df,
     main fuel true max_rows = Some (Saved saved_as df) ->
     saved_as = "secop_test.parquet" /\
     (pages_bounded -> Z.of_nat (length (df_rows df)) <= 1000)) /\
  (forall max_rows, exists r, main 1001 true max_rows = Some r) /\
  (forall fuel max_rows saved_as df,
     main fuel false max_rows = Some (Saved saved_as df) ->
     saved_as = "secop_raw.parquet").
Proof.
  split; [reflexivity |]. split; [| split].
  - intros fuel max_rows saved_as df Hmain. unfold main in Hmain. split.
    + by apply pull_data_saved_name in Hmain.
    + intros Hpages.
      by apply (pull_data_capped fuel 1000 "secop_test.parquet" saved_as df).
  - intros max_rows. unfold main, pull_data.
    destruct (fetch_loop_stops 1000 1001 loop_init) as [st ->]; [simpl; lia |].
    eauto.
  - intros fuel max_rows saved_as df Hmain. unfold main in Hmain.
    by apply pull_data_saved_name in Hmain.
Qed.

End PullMore.

Lemma endless_always_full :
  ApiBehaviour.always_full (requests := MoreSamples.endless_server).
Proof.
  intros off lim Hlim. eexists. split; [reflexivity |].
  rewrite length_replicate. cbn [p_limit]. lia.
Qed.

Lemma pull_data_unbounded_witness :
  SecopClient.pull_data (pandas := Samples.digits_pandas)
      (pystr := Samples.ascii_pystr)
    (requests := MoreSamples.endless_server) 3 None "secop_raw.parquet" = None.
Proof.
  apply (pull_data_unbounded (pandas := Samples.digits_pandas)
      (pystr := Samples.ascii_pystr)
           (requests := MoreSamples.endless_server) 3 "secop_raw.parquet").
  apply endless_always_full.
Defined.

Lemma page_server_serves (data : list (gmap string cell)) :
  ApiBehaviour.serves (requests := Samples.page_server data) data.
Proof.
  intros off lim Hoff Hlim. unfold SecopClient.fetch_page. simpl.
  destruct (lim <? 0) eqn:H1; [apply Z.ltb_lt in H1; lia |].
  destruct (off <? 0) eqn:H2; [apply Z.ltb_lt in H2; lia |].
  reflexivity.
Qed.

Lemma pull_retrieves_in_order_witness :
  df_rows (SecopClient.fetched
             (requests := Samples.page_server Samples.three_records)
             (length Samples.three_records + 1) (Some 2))
  = take 2 Samples.three_records.
Proof.
  apply (proj2 (pull_retrieves_in_order
                  (requests := Samples.page_server Samples.three_records)
                  Samples.three_records (Some 2)
                  (page_server_serves Samples.three_records))).
Defined.

Lemma pull_data_raises_witness :
  SecopClient.pull_data (pandas := Samples.digits_pandas)
      (pystr := Samples.ascii_pystr)
    (requests := Samples.page_server MoreSamples.records_without_dias)
    1 None "secop_raw.parquet"
  = Some (SecopClient.Raised "dias_adicionados") /\
  forall r : gmap string cell,
    r ∈ df_rows (SecopClient.fetched
                   (requests := Samples.page_server MoreSamples.records_without_dias)
                   1 None) ->
    r !! "dias_adicionados" = None.
Proof.
  split; [vm_compute; reflexivity |].
  apply (pull_data_raises (pandas := Samples.digits_pandas)
      (pystr := Samples.ascii_pystr)
           (requests := Samples.page_server MoreSamples.records_without_dias)
           1 None "secop_raw.parquet" "dias_adicionados").
  vm_compute. reflexivity.
Defined.

Example pull_data_server_down :
  SecopClient.pull_data (pandas := Samples.digits_pandas)
      (pystr := Samples.ascii_pystr)
    (requests := MoreSamples.failing_server) 5 None "secop_raw.parquet"
  = Some SecopClient.NoData.
Proof. vm_compute. reflexivity. Qed.

(** ** The dashboard filters, row by row *)

Section FilterFacts.
Import Dashboard DashboardRows.

Lemma apply_filters_filter (df : list Contract) (years : Z * Z)
    (sectors tiers depts : list string) :
  apply_filters df years sectors tiers depts
  = List.filter (passes years sectors tiers depts) df.
Proof.
  unfold apply_filters, passes.
  destruct (list_truthy tiers), (list_truthy sectors), (list_truthy depts);
    rewrite ?loc_rows_fmap, ?filter_twice;
    apply List.filter_ext; intros r; unfold compose;
    rewrite ?andb_true_r, ?andb_assoc; reflexivity.
Qed.

Lemma between_true (lo hi : Z) (v : option Z) :
  between lo hi v = true <-> exists y, v = Some y /\ lo <= y <= hi.
Proof.
  destruct v as [y |]; simpl.
  - rewrite andb_true_iff, !Z.leb_le. split.
    + intros H. exists y. auto.
    + intros (y' & Heq & H). inversion Heq; subst. exact H.
  - split; [discriminate | intros (y & Heq & _); discriminate].
Qed.

Lemma selection_true (values : list string) (v : option string) :
  (if list_truthy values then isin values v else true) = true
  <-> values = [] \/ exists s, v = Some s /\ s ∈ values.
Proof.
  destruct values as [| x values]; simpl.
  - split; auto.
  - destruct v as [s |]; simpl.
    + rewrite bool_decide_eq_true. split.
      * intros H. right. eauto.
      * intros [Hnil | (s' & Heq & H)]; [discriminate |].
        inversion Heq; subst. exact H.
    + split; [discriminate |].
      intros [Hnil | (s' & Heq & _)]; discriminate.
Qed.

(** X14: [apply_filters] returns, in their order, exactly the rows of the
    table whose year is not null and lies in the range, both ends included,
    and whose tier, sector and department are each among the selected ones;
    an empty selection puts no restriction. *)
Theorem apply_filters_selects (df : list Contract) (years : Z * Z)
    (sectors tiers depts : list string) :
  apply_filters df years sectors tiers depts `sublist_of` df /\
  forall r : Contract,
    r ∈ apply_filters df years sectors tiers depts <->
    r ∈ df /\
    (exists y, year r = Some y /\ fst years <= y <= snd years) /\
    (tiers = [] \/ exists s, risk_tier r = Some s /\ s ∈ tiers) /\
    (sectors = [] \/ exists s, sector r = Some s /\ s ∈ sectors) /\
    (depts = [] \/ exists s, departamento r = Some s /\ s ∈ depts).
Proof.
  split.
  - unfold apply_filters.
    destruct (list_truthy tiers), (list_truthy sectors), (list_truthy depts);
      repeat (etrans; [apply loc_rows_sublist |]); reflexivity.
  - intros r. rewrite apply_filters_filter, !list_elem_of_In, List.filter_In.
    unfold passes. rewrite !andb_true_iff, between_true, !selection_true.
    tauto.
Qed.

(** X15: filtering twice with the same selection changes nothing more, and
    filtering a table made of two parts filters each part. *)
Theorem apply_filters_idempotent (df df2 : list Contract) (years : Z * Z)
    (sectors tiers depts : list string) :
  apply_filters (apply_filters df years sectors tiers depts)
    years sectors tiers depts
  = apply_filters df years sectors tiers depts /\
  apply_filters (df ++ df2) years sectors tiers depts
  = (apply_filters df years sectors tiers depts
     ++ apply_filters df2 years sectors tiers depts)%list.
Proof.
  rewrite !apply_filters_filter. split.
  - rewrite filter_twice. apply List.filter_ext. intros r.
    by destruct (passes _ _ _ _ r).
  - apply List.filter_app.
Qed.

(** X16: a year range whose start is after its end selects nothing, and a
    row whose year is null is never selected, whatever the range. *)
Theorem apply_filters_year_edges (df : list Contract) (years : Z * Z)
    (sectors tiers depts : list string) :
  (snd years < fst years -> apply_filters df years sectors tiers depts = []) /\
  (forall r, year r = None ->
     r ∉ apply_filters df years sectors tiers depts).
Proof.
  split.
  - intros Hinv. rewrite apply_filters_filter.
    induction df as [| r df IH]; [reflexivity |].
    simpl. rewrite IH. unfold passes, between.
    destruct (year r) as [y |]; [| reflexivity].
    destruct (fst years <=? y) eqn:H1; [| reflexivity].
    destruct (y <=? snd years) eqn:H2; [| reflexivity].
    apply Z.leb_le in H1. apply Z.leb_le in H2. lia.
  - intros r Hnull Hin. rewrite apply_filters_filter in Hin.
    apply list_elem_of_In, List.filter_In in Hin. destruct Hin as [_ Hpass].
    unfold passes in Hpass. rewrite Hnull in Hpass. discriminate.
Qed.

End FilterFacts.

(** ** The Contract Explorer, row by row *)

Section ExplorerMore.
Import Dashboard DashboardRows DashboardTabs.
Context {regex : Regex} {pystr : PyStr}.

(** Without a search text the mask is a row-wise test: that of
    [apply_filters] and the minimum risk. *)
Lemma explorer_mask_blank (df : list Contract) (years : Z * Z)
    (sectors tiers depts : list string) (search_vendor search_agency : string)
    (min_risk : float) :
  blank search_vendor = true -> blank search_agency = true ->
  explorer_mask df years sectors tiers depts search_vendor search_agency min_risk
  = (fun r => passes years sectors tiers depts r
              && meets_min_risk min_risk r) <$> df.
Proof.
  intros Hv Ha. unfold explorer_mask, passes, meets_min_risk.
  rewrite (strip_blank _ Hv), (strip_blank _ Ha).
  change (str_truthy "") with false. cbv iota.
  destruct (list_truthy tiers), (list_truthy sectors), (list_truthy depts),
    (0 <? min_risk)%float;
    rewrite ?series_and_fmap; apply list_fmap_ext; intros i r _;
    unfold compose; rewrite ?andb_assoc, ?andb_true_r; reflexivity.
Qed.

(** X17: when both search texts are empty or white space only, whatever the
    minimum risk, the Contract Explorer selects the rows that [apply_filters]
    returns and whose calibrated score is at least the minimum risk (all of
    them when the minimum risk is not above zero), so never a row outside the
    sidebar filters; its mask has one entry per row of the table. *)
Theorem explorer_without_search (df : list Contract) (years : Z * Z)
    (sectors tiers depts : list string) (search_vendor search_agency : string)
    (min_risk : float) :
  blank search_vendor = true -> blank search_agency = true ->
  let mask := explorer_mask df years sectors tiers depts
                search_vendor search_agency min_risk in
  loc_rows df mask
  = List.filter (meets_min_risk min_risk)
      (apply_filters df years sectors tiers depts) /\
  loc_rows df mask `sublist_of` apply_filters df years sectors tiers depts /\
  length mask = length df.
Proof.
  intros Hv Ha. cbv zeta.
  rewrite (explorer_mask_blank _ _ _ _ _ _ _ _ Hv Ha).
  rewrite loc_rows_fmap, apply_filters_filter.
  rewrite filter_twice. split; [reflexivity |]. split.
  - rewrite <- filter_twice.
    rewrite <- (loc_rows_fmap (meets_min_risk min_risk)).
    apply loc_rows_sublist.
  - apply length_fmap.
Qed.

(** X19: a search text of white space only is no search: the mask is the one
    of an empty search text. *)
Theorem blank_search_is_ignored (df : list Contract) (years : Z * Z)
    (sectors tiers depts : list string) (search_vendor search_agency : string)
    (min_risk : float) :
  blank search_vendor = true -> blank search_agency = true ->
  explorer_mask df years sectors tiers depts search_vendor search_agency min_risk
  = explorer_mask df years sectors tiers depts "" "" min_risk.
Proof.
  intros Hv Ha. unfold explorer_mask.
  rewrite (strip_blank _ Hv), (strip_blank _ Ha), (strip_blank "" eq_refl).
  reflexivity.
Qed.

Lemma mask_sum_loc_rows {A} (l : list A) (mask : list bool) :
  length mask = length l -> length (loc_rows l mask) = mask_sum mask.
Proof.
  revert mask. induction l as [| x l IH]; intros [| b mask] Hlen;
    try discriminate; [reflexivity |].
  rewrite loc_rows_cons. unfold mask_sum in *. simpl in *.
  destruct b; simpl; rewrite IH by lia; reflexivity.
Qed.

(** X20: the table of the Contract Explorer shows 200 rows or, when fewer
    match, all the matching rows, each of them a row of the table; so the
    caption never counts more shown rows than matching ones. *)
Theorem explorer_result_caption `{SortValues} (df : list Contract)
    (mask : list bool) :
  length mask = length df ->
  length (explorer_result df mask) = Nat.min 200 (mask_sum mask) /\
  (length (explorer_result df mask) <= mask_sum mask)%nat /\
  (forall r, r ∈ explorer_result df mask -> r ∈ df).
Proof.
  intros Hlen. unfold explorer_result.
  assert (length (sort_values (loc_rows df mask)) = mask_sum mask) as Hsorted.
  { rewrite (Permutation_length (sort_values_perm _)).
    by apply mask_sum_loc_rows. }
  rewrite length_take, Hsorted. split; [reflexivity |]. split; [lia |].
  intros r Hr.
  assert (r ∈ sort_values (loc_rows df mask)) as Hr'
    by (eapply elem_of_sublist; [exact Hr | apply sublist_take]).
  rewrite (sort_values_perm _) in Hr'.
  eapply elem_of_sublist; [exact Hr' | apply loc_rows_sublist].
Qed.

End ExplorerMore.

(** ** The Agency Drill-Down *)

Section AgencyFacts.
Import Dashboard DashboardTabs.

Lemma elem_of_unique (l : list (option string)) (x : option string) :
  x ∈ unique l <-> x ∈ l.
Proof.
  induction l as [| y l IH]; [reflexivity |].
  simpl. rewrite !elem_of_cons, list_elem_of_In, List.filter_In,
    <- list_elem_of_In, IH.
  rewrite negb_true_iff, bool_decide_eq_false.
  destruct (decide (x = y)); tauto.
Qed.

Lemma eq_elem_true (v x : option string) :
  eq_elem v x = true <-> exists s, v = Some s /\ x = Some s.
Proof.
  destruct v as [a |], x as [b |]; simpl;
    try (split; [discriminate | intros (s & H1 & H2); discriminate]).
  rewrite String.eqb_eq. split.
  - intros ->. eauto.
  - intros (s & H1 & H2). congruence.
Qed.

(** X21: an agency chosen among the agency ids of the filtered table has at
    least one contract there, so the "no contracts" warning cannot show for
    it; every row of its table is a row of that agency; a null id selects
    nothing. *)
Theorem agency_df_nonempty (filtered : list Contract) (s : string) :
  (Some s ∈ unique (codigo_entidad <$> filtered) ->
   agency_df filtered (Some s) <> []) /\
  (forall r, r ∈ agency_df filtered (Some s) <->
     r ∈ filtered /\ codigo_entidad r = Some s) /\
  agency_df filtered None = [].
Proof.
  assert (forall x r, r ∈ agency_df filtered x <->
            r ∈ filtered /\ eq_elem (codigo_entidad r) x = true) as Hspec.
  { intros x r. unfold agency_df.
    rewrite loc_rows_fmap, list_elem_of_In, List.filter_In, <- list_elem_of_In.
    reflexivity. }
  split; [| split].
  - intros Hin. apply (proj1 (elem_of_unique _ _)) in Hin.
    apply list_elem_of_fmap in Hin. destruct Hin as (r & Hr & Hin).
    assert (r ∈ agency_df filtered (Some s)) as Hrow.
    { apply Hspec. split; [exact Hin |]. apply eq_elem_true. eauto. }
    intros Hnil. rewrite Hnil in Hrow. by apply not_elem_of_nil in Hrow.
  - intros r. rewrite Hspec, eq_elem_true. split.
    + intros [Hin (s' & H1 & H2)]. split; [exact Hin | congruence].
    + intros [Hin Heq]. split; [exact Hin | eauto].
  - unfold agency_df. rewrite loc_rows_fmap.
    induction filtered as [| r l IH]; [reflexivity |].
    simpl. destruct (codigo_entidad r); simpl; apply IH;
      intros x r0; unfold agency_df;
      rewrite loc_rows_fmap, list_elem_of_In, List.filter_In,
        <- list_elem_of_In; reflexivity.
Qed.

End AgencyFacts.

Lemma explorer_without_search_witness :
  loc_rows Samples.scored_table
    (Dashboard.explorer_mask (regex := Samples.prefix_regex)
       (pystr := Samples.ascii_pystr) Samples.scored_table
       (2019, 2022) ["Salud"] [] [] "  " "" 0.5%float)
  = List.filter (DashboardRows.meets_min_risk 0.5%float)
      (Dashboard.apply_filters Samples.scored_table (2019, 2022)
         ["Salud"] [] []).
Proof.
  apply (explorer_without_search (regex := Samples.prefix_regex)
           (pystr := Samples.ascii_pystr) Samples.scored_table
           (2019, 2022) ["Salud"] [] [] "  " "" 0.5%float);
    vm_compute; reflexivity.
Defined.

Example explorer_without_search_sample :
  loc_rows Samples.scored_table
    (Dashboard.explorer_mask (regex := Samples.prefix_regex)
       (pystr := Samples.ascii_pystr) Samples.scored_table
       (2019, 2022) ["Salud"] [] [] "  " "" 0.5%float)
  = [ Samples.scored 2019 "Salud" "Antioquia" "High" "V1" 0.8%float;
      Samples.scored 2022 "Salud" "Antioquia" "High" "V3" 0.85%float ].
Proof. vm_compute. reflexivity. Qed.

Lemma blank_search_is_ignored_witness :
  Dashboard.explorer_mask (regex := Samples.prefix_regex)
    (pystr := Samples.ascii_pystr) Samples.scored_table
    (2019, 2022) ["Salud"] [] [] "   " " " 0.5%float
  = Dashboard.explorer_mask (regex := Samples.prefix_regex)
      (pystr := Samples.ascii_pystr) Samples.scored_table
      (2019, 2022) ["Salud"] [] [] "" "" 0.5%float.
Proof.
  apply (blank_search_is_ignored (regex := Samples.prefix_regex)
           (pystr := Samples.ascii_pystr)
           Samples.scored_table (2019, 2022) ["Salud"] [] [] "   " " " 0.5%float);
    vm_compute; reflexivity.
Defined.

Lemma explorer_result_caption_witness :
  length (DashboardTabs.explorer_result (H := MoreSamples.unsorted)
            Samples.scored_table [true; false; true; true])
  = Nat.min 200 (DashboardTabs.mask_sum [true; false; true; true]).
Proof.
  apply (explorer_result_caption (H := MoreSamples.unsorted)
           Samples.scored_table [true; false; true; true]).
  reflexivity.
Defined.

Example agency_table_of_sample :
  length (DashboardTabs.agency_df Samples.scored_table (Some "700")) = 4%nat /\
  DashboardTabs.agency_df Samples.scored_table (Some "701") = [] /\
  DashboardTabs.unique (Dashboard.codigo_entidad <$> Samples.scored_table)
  = [Some "700"].
Proof. repeat split; vm_compute; reflexivity. Qed.

(** ** The sidebar defaults *)

Section SidebarFacts.
Import Dashboard DashboardRows Sidebar.

Lemma foldr_min_max_bounds (y0 : Z) (l : list Z) (y : Z) :
  y ∈ y0 :: l -> foldr Z.min y0 l <= y <= foldr Z.max y0 l.
Proof.
  induction l as [| z l IH]; simpl.
  - intros Hy. apply list_elem_of_singleton in Hy. lia.
  - rewrite !elem_of_cons. intros [-> | [-> | Hy]].
    + assert (foldr Z.min y0 l <= y0 <= foldr Z.max y0 l) by (apply IH; left).
      lia.
    + lia.
    + assert (foldr Z.min y0 l <= y <= foldr Z.max y0 l)
        by (apply IH; by right).
      lia.
Qed.

(** X22: with the sidebar as it opens (the full year range, the three tiers,
    no sector and no department), the filtered table holds exactly the rows
    whose year is not null and whose tier is High, Medium or Low: a row with
    a null year or with a null or other tier is left out from the start. *)
Theorem sidebar_defaults_select (df : list Contract) (years : Z * Z) :
  year_bounds df = Some years ->
  forall r : Contract,
    r ∈ apply_filters df years [] default_tiers [] <->
    r ∈ df /\ year r <> None /\
    (risk_tier r = Some "High" \/ risk_tier r = Some "Medium"
     \/ risk_tier r = Some "Low").
Proof.
  intros Hbounds r.
  rewrite apply_filters_filter, list_elem_of_In, List.filter_In,
    <- list_elem_of_In.
  unfold passes. cbn [list_truthy default_tiers]. rewrite !andb_true_r.
  rewrite andb_true_iff, between_true.
  assert (isin default_tiers (risk_tier r) = true <->
          (risk_tier r = Some "High" \/ risk_tier r = Some "Medium"
           \/ risk_tier r = Some "Low")) as ->.
  { unfold isin, default_tiers. destruct (risk_tier r) as [s |].
    - rewrite bool_decide_eq_true, !elem_of_cons. split.
      + intros [-> | [-> | [-> | Hnil]]]; auto. by apply not_elem_of_nil in Hnil.
      + intros [H | [H | H]]; inversion H; auto.
    - split; [discriminate | intros [H | [H | H]]; discriminate]. }
  split.
  - intros (Hin & (y & Hy & _) & Htier). rewrite Hy. auto.
  - intros (Hin & Hyear & Htier). split; [exact Hin |]. split; [| exact Htier].
    destruct (year r) as [y |] eqn:Hy; [| done].
    exists y. split; [reflexivity |].
    unfold year_bounds in Hbounds.
    assert (y ∈ omap year df) as Hmem.
    { apply list_elem_of_omap. eauto. }
    destruct (omap year df) as [| y0 ys]; [discriminate |].
    inversion Hbounds; subst years. simpl.
    by apply foldr_min_max_bounds.
Qed.

End SidebarFacts.

Lemma sidebar_defaults_select_witness :
  Samples.scored 2021 "Defensa" "Antioquia" "Medium" "V1" 0.5%float
  ∈ Dashboard.apply_filters Samples.scored_table (2019, 2022) []
      Sidebar.default_tiers [].
Proof.
  apply (sidebar_defaults_select Samples.scored_table (2019, 2022)).
  - vm_compute. reflexivity.
  - split; [vm_compute; right; right; left |].
    split; [discriminate |]. right. left. reflexivity.
Defined.
